(** * helix-deploy: the Fastly gateway and the Google deployer

    A shallow embedding of [src/gateway/FastlyGateway.js] and of the
    Google deployer ([GoogleDeployer], a subclass of [BaseDeployer]).

    JavaScript strings are modelled as Rocq strings, objects with a fixed
    shape as records, [Map]s as [gmap], asynchronous methods as
    computations in a state / trace / exception monad.  The remote
    services (the Fastly API, the Cloud Functions API) are environments:
    records of functions that say how each request is answered.

    The configuration objects are typed: every field the code reads is
    present.  Requests that are in flight together ([Promise.all]) are
    recorded in the order in which they are sent; nothing below depends
    on the order in which they settle. *)

From Stdlib Require Import Ascii.
From stdpp Require Import base list strings gmap pretty.

Local Open Scope Z_scope.

(** ** JavaScript values and strings *)

(** The values a loosely typed field holds in this program: a string, or
    nothing ([undefined], [null]). *)
Inductive jsval :=
| JSundefined
| JSnull
| JSstr (s : string).

Global Instance jsval_eq_dec : EqDecision jsval.
Proof. solve_decision. Defined.

(** [!!v] *)
Definition truthy (v : jsval) : bool :=
  match v with
  | JSstr s => negb (String.eqb s "")
  | _ => false
  end.

(** [`${v}`], and [s + v] for a string [s]. *)
Definition to_str (v : jsval) : string :=
  match v with
  | JSundefined => "undefined"
  | JSnull => "null"
  | JSstr s => s
  end.

Definition nl : string := String (ascii_of_nat 10) EmptyString.

(** [s.replace(/c/g, r)] for a one-character pattern and replacement. *)
Fixpoint replace_all (c r : ascii) (s : string) : string :=
  match s with
  | EmptyString => EmptyString
  | String a s' =>
      String (if Ascii.eqb a c then r else a) (replace_all c r s')
  end.

(** [s.replace(c, r)] with a string pattern: the first occurrence only. *)
Fixpoint replace_first (c r : ascii) (s : string) : string :=
  match s with
  | EmptyString => EmptyString
  | String a s' =>
      if Ascii.eqb a c then String r s' else String a (replace_first c r s')
  end.

(** Number of occurrences of a character. *)
Fixpoint count_char (c : ascii) (s : string) : nat :=
  match s with
  | EmptyString => 0%nat
  | String a s' => ((if Ascii.eqb a c then 1 else 0) + count_char c s')%nat
  end.

(** [l.join(sep)] *)
Definition join (sep : string) (l : list string) : string :=
  String.concat sep l.

(** ** Errors and the effect monad *)

(** A thrown value: an [Error] with its name and message; a gRPC error
    also carries [metadata.internalRepr], a [Map] from header names to
    values (kept here as the text [toString()] gives). *)
Record js_error := {
  err_name : string;
  err_message : string;
  err_metadata : option (gmap string string);
}.

Definition TypeError (msg : string) : js_error :=
  {| err_name := "TypeError"; err_message := msg; err_metadata := None |}.

Inductive result (A : Type) :=
| Ok (a : A)
| Throw (e : js_error).
Arguments Ok {A} a.
Arguments Throw {A} e.

Section Effects.
Context {St Ev : Type}.

(** A computation reads and writes the object's fields ([St]), appends
    to the trace of what it did ([Ev]), and returns or throws. *)
Definition M (A : Type) : Type := St → St * list Ev * result A.

Definition ret {A} (a : A) : M A := λ s, (s, [], Ok a).

Definition throw {A} (e : js_error) : M A := λ s, (s, [], Throw e).

Definition bind {A B} (m : M A) (k : A → M B) : M B := λ s,
  match m s with
  | (s1, t1, Ok a) =>
      match k a s1 with
      | (s2, t2, r) => (s2, t1 ++ t2, r)
      end
  | (s1, t1, Throw e) => (s1, t1, Throw e)
  end.

(** [try { m } catch (e) { h e }] *)
Definition try_catch {A} (m : M A) (h : js_error → M A) : M A := λ s,
  match m s with
  | (s1, t1, Ok a) => (s1, t1, Ok a)
  | (s1, t1, Throw e) =>
      match h e s1 with
      | (s2, t2, r) => (s2, t1 ++ t2, r)
      end
  end.

Definition emit (e : Ev) : M unit := λ s, (s, [e], Ok tt).

Definition get : M St := λ s, (s, [], Ok s).

Definition modify (f : St → St) : M unit := λ s, (f s, [], Ok tt).

(** An awaited promise that is already settled. *)
Definition await {A} (r : result A) : M A := λ s, (s, [], r).
End Effects.

Declare Scope js_scope.
Delimit Scope js_scope with js.
Notation "'let*' x := m 'in' k" := (bind m (λ x, k))
  (at level 10, x name, m at level 100, k at level 200) : js_scope.
Notation "m ;; k" := (bind m (λ _, k))
  (at level 100, k at level 200, right associativity) : js_scope.

(** The parts of a run. *)
Definition final_state {St Ev A} (r : St * list Ev * result A) : St := r.1.1.
Definition trace {St Ev A} (r : St * list Ev * result A) : list Ev := r.1.2.
Definition outcome {St Ev A} (r : St * list Ev * result A) : result A := r.2.


Local Open Scope js_scope.

(** [encodeURIComponent] on a string held as its UTF-8 bytes: the
    unreserved characters stay, every other byte becomes [%XX]. *)
Definition is_unreserved (a : ascii) : bool :=
  let n := N_of_ascii a in
  ((65 <=? n) && (n <=? 90) || (97 <=? n) && (n <=? 122)
   || (48 <=? n) && (n <=? 57))%N
  || bool_decide (a ∈ ["-"; "_"; "."; "!"; "~"; "*"; "'"; "("; ")"]%char).

Definition hex_digit (n : N) : ascii :=
  ascii_of_N (if (n <? 10)%N then 48 + n else 55 + n)%N.

Fixpoint encodeURIComponent (s : string) : string :=
  match s with
  | EmptyString => EmptyString
  | String a s' =>
      if is_unreserved a then String a (encodeURIComponent s')
      else
        let n := N_of_ascii a in
        String "%" (String (hex_digit (n / 16)) (String (hex_digit (n mod 16))
          (encodeURIComponent s')))
  end.

(** ** GoogleDeployer *)

Module GoogleDeployer.

(** [this.cfg], the base configuration of the build (read only). *)
Record BaseConfig := {
  packageName : string;
  name : string;
  version : string;
  description : jsval;          (* [pkgJson.description] *)
  nodeVersion : string;
  memory : Z;
  updatedAt : string;
  params : list (string * string);
  zipFile : string;
}.

(** [this._cfg], the Google configuration. *)
Record GoogleConfig := {
  email : string;
  keyFile : string;
  projectID : string;
  region : string;
}.

(** The function resource sent to the API. *)
Record Func := {
  f_name : string;
  serviceAccountEmail : string;
  f_description : jsval;
  entryPoint : string;
  runtime : string;
  availableMemoryMb : Z;
  labels : list (string * string);
  environmentVariables : list (string * string);
  sourceUploadUrl : jsval;
}.

(** The function resource an operation resolves to: [httpsTrigger] is
    absent, or holds the [url]. *)
Record CloudFunction := {
  httpsTrigger : option jsval;
}.

Record IamBinding := {
  role : string;
  members : list string;
}.

(** A long-running operation: what [op.promise()] settles to. *)
Definition Operation : Type := result CloudFunction.

(** The Cloud Functions client: how the service answers each call. *)
Record CloudFunctionsServiceClient := {
  getFunction : string → result unit;
  updateFunction : Func → result Operation;
  createFunction_rpc : string → Func → result Operation;
  setIamPolicy : string → list IamBinding → result unit;
}.

Inductive rpc :=
| GetFunction (name : string)
| UpdateFunction (function : Func)
| CreateFunction (location : string) (function : Func)
| OperationPromise
| SetIamPolicy (resource : string) (bindings : list IamBinding).

Inductive log_arg :=
| LStr (s : string)
| LErr (e : js_error).

Record TestOptions := {
  url : string;
  idHeader : string;
  retry404 : Z;
}.

(** What a run does, in order. *)
Inductive event :=
| Rpc (r : rpc)
| LogInfo (msg : string)
| LogError (args : list log_arg)
| TestRequest (o : TestOptions).

(** The fields of the deployer object. *)
Record state := {
  cfg : BaseConfig;
  _cfg : GoogleConfig;
  _client : option CloudFunctionsServiceClient;
  _uploadURL : jsval;
  _function : option CloudFunction;
  _functionURL : jsval;
}.

Definition set_function (f : CloudFunction) (s : state) : state :=
  {| cfg := cfg s; _cfg := _cfg s; _client := _client s;
     _uploadURL := _uploadURL s; _function := Some f;
     _functionURL := _functionURL s |}.

Definition set_functionURL (u : jsval) (s : state) : state :=
  {| cfg := cfg s; _cfg := _cfg s; _client := _client s;
     _uploadURL := _uploadURL s; _function := _function s;
     _functionURL := u |}.

Definition ready (s : state) : bool :=
  match _client s with Some _ => true | None => false end.

Definition fullFunctionName (s : state) : string :=
  replace_first "@" "_"
    (replace_all "." "_" (packageName (cfg s) +:+ "--" +:+ name (cfg s))).

(** [this._client.m(...)]: a [TypeError] while [_client] is [null]. *)
Definition client_call {A} (r : rpc)
    (m : CloudFunctionsServiceClient → result A) : M (St:=state) A :=
  let* s := get in
  match _client s with
  | None => throw (TypeError "Cannot read properties of null")
  | Some c => emit (Rpc r) ;; await (m c)
  end.

(** [err.metadata.internalRepr.get(key).toString()] *)
Definition metadata_get (err : js_error) (key : string)
    : M (St:=state) (Ev:=event) string :=
  match err_metadata err with
  | None => throw (TypeError "Cannot read properties of undefined")
  | Some m =>
      match m !! key with
      | None => throw (TypeError "Cannot read properties of undefined")
      | Some v => ret v
      end
  end.

Definition function_of (s : state) (name : string) : Func :=
  {| f_name := name;
     serviceAccountEmail := email (_cfg s);
     f_description := description (cfg s);
     entryPoint := "google";
     runtime := "nodejs" +:+ nodeVersion (cfg s);
     availableMemoryMb := memory (cfg s);
     labels :=
       [("pkgversion",
         encodeURIComponent (replace_all "." "_" (version (cfg s))));
        ("updated", updatedAt (cfg s))];
     environmentVariables := params (cfg s);
     sourceUploadUrl := _uploadURL s |}.

Definition invoker_policy : list IamBinding :=
  [{| role := "roles/cloudfunctions.invoker"; members := ["allUsers"] |}].

(** [projects/{projectID}/locations/{region}] *)
Definition location (s : state) : string :=
  "projects/" +:+ projectID (_cfg s) +:+ "/locations/" +:+ region (_cfg s).

(** The [name] of the function resource. *)
Definition resource_name (s : state) : string :=
  "projects/" +:+ projectID (_cfg s) +:+ "/locations/" +:+ region (_cfg s)
  +:+ "/functions/" +:+ fullFunctionName s.

(** [await this._client.getFunction({ name })] *)
Definition lookup (name : string) : M (St:=state) unit :=
  client_call (GetFunction name) (λ c, getFunction c name).

(** The first [try]: does the function exist? *)
Definition lookup_exists (name : string) : M (St:=state) bool :=
  try_catch (lookup name ;; ret true) (λ _, ret false).

(** The second [try] block: update or create, then the IAM policy. *)
Definition create_or_update (name : string) (exists_ : bool)
    : M (St:=state) unit :=
  let* s := get in
  let func := function_of s name in
  (if exists_ then
     let* op := client_call (UpdateFunction func)
                  (λ c, updateFunction c func) in
     emit (LogInfo "updating existing function") ;;
     let* res := (emit (Rpc OperationPromise) ;; await op) in
     modify (set_function res) ;;
     emit (LogInfo "function deployed")
   else
     let* op := client_call (CreateFunction (location s) func)
                  (λ c, createFunction_rpc c (location s) func) in
     emit (LogInfo
       "creating function, please wait (Google deployments are slow).") ;;
     let* res := (emit (Rpc OperationPromise) ;; await op) in
     modify (set_function res) ;;
     emit (LogInfo "function deployed")) ;;
  emit (LogInfo "enabling unauthenticated requests") ;;
  client_call (SetIamPolicy name invoker_policy)
    (λ c, setIamPolicy c name invoker_policy).

(** Its [catch] block. *)
Definition report_and_rethrow (err : js_error) : M (St:=state) unit :=
  emit (LogError [LErr err]) ;;
  let* bad := metadata_get err "google.rpc.badrequest-bin" in
  emit (LogError [LStr "bad request:"; LStr bad]) ;;
  let* details := metadata_get err "grpc-status-details-bin" in
  emit (LogError [LStr "details:"; LStr details]) ;;
  throw err.

Definition createFunction : M (St:=state) unit :=
  let* s := get in
  let name := resource_name s in
  let* exists_ := lookup_exists name in
  try_catch (create_or_update name exists_) report_and_rethrow ;;
  let* s' := get in
  match _function s' with
  | Some {| httpsTrigger := Some u |} => modify (set_functionURL u)
  | _ => throw (TypeError "Cannot read properties of undefined")
  end.

Section Test.
(** [testRequest] is inherited from [BaseDeployer]; it is a parameter
    here. *)
Variable testRequest : TestOptions → result unit.

Definition test_url (s : state) : string :=
  if truthy (_functionURL s) then to_str (_functionURL s)
  else "https://" +:+ region (_cfg s) +:+ "-" +:+ projectID (_cfg s)
       +:+ ".cloudfunctions.net/" +:+ fullFunctionName s.

Definition test : M (St:=state) unit :=
  let* s := get in
  let o := {| url := test_url s;
              idHeader := "X-Cloud-Trace-Context";
              retry404 := 1 |} in
  emit (TestRequest o) ;;
  await (testRequest o).
End Test.

End GoogleDeployer.

(** ** FastlyGateway *)

Module FastlyGateway.

(** What the gateway reads of a deployer it fronts. *)
Record deployer := {
  name : string;
  host : string;
  basePath : string;
  urlVCL : string;
  customVCL : jsval;
}.

Record Condition := {
  c_name : string;
  statement : string;
  c_type : string;
}.

Record Healthcheck := {
  check_interval : Z;
  expected_response : Z;
  hc_host : string;
  http_version : string;
  method : string;
  initial : Z;
  hc_name : string;
  path : string;
  threshold : Z;
  timeout : Z;
  window : Z;
}.

Record Backend := {
  hostname : string;
  ssl_cert_hostname : string;
  ssl_sni_hostname : string;
  address : string;
  override_host : string;
  b_name : string;
  healthcheck : string;
  error_threshold : Z;
  first_byte_timeout : Z;
  weight : Z;
  connect_timeout : Z;
  port : Z;
  between_bytes_timeout : Z;
  shield : string;
  max_conn : Z;
  use_ssl : bool;
  request_condition : string;
}.

Record Snippet := {
  s_name : string;
  priority : Z;
  dynamic : Z;
  s_type : string;
  content : string;
}.

(** The requests [deploy] sends inside its transaction. *)
Inductive call :=
| WriteCondition (version : Z) (name : string) (c : Condition)
| WriteHealthcheck (version : Z) (name : string) (h : Healthcheck)
| CreateBackend (version : Z) (b : Backend)
| UpdateBackend (version : Z) (name : string) (b : Backend)
| WriteSnippet (version : Z) (name : string) (s : Snippet).

Inductive event :=
| LogInfo (msg : string)
| Call (c : call).

(** The client of [@adobe/fastly-native-promises]: [transact] clones
    the active version (or fails), runs the callback on the new version
    number, and activates it; [answers] says how each write settles. *)
Record FastlyClient := {
  transact_version : result Z;
  answers : call → result unit;
  transact_activate : result unit;
}.

(** The fields of the gateway object. *)
Record state := {
  _service : jsval;
  _auth : jsval;
  _fastly : option FastlyClient;
  _deployers : list deployer;
  _checkpath : jsval;
}.

Definition constructor : state :=
  {| _service := JSundefined; _auth := JSundefined; _fastly := None;
     _deployers := []; _checkpath := JSstr "" |}.

Definition ready (g : state) : bool :=
  truthy (_service g) && truthy (_auth g) && truthy (_checkpath g).

Definition withAuth (value : jsval) (g : state) : state :=
  {| _service := _service g; _auth := value; _fastly := _fastly g;
     _deployers := _deployers g; _checkpath := _checkpath g |}.

Definition withServiceID (value : jsval) (g : state) : state :=
  {| _service := value; _auth := _auth g; _fastly := _fastly g;
     _deployers := _deployers g; _checkpath := _checkpath g |}.

Definition withDeployer (value : deployer) (g : state) : state :=
  {| _service := _service g; _auth := _auth g; _fastly := _fastly g;
     _deployers := _deployers g ++ [value]; _checkpath := _checkpath g |}.

Definition withCheckpath (value : jsval) (g : state) : state :=
  {| _service := _service g; _auth := _auth g; _fastly := _fastly g;
     _deployers := _deployers g; _checkpath := value |}.

(** [!!this._fastly] *)
Definition has_client (g : state) : bool :=
  match _fastly g with Some _ => true | None => false end.

Section Init.
(** The constructor of the client library. *)
Variable Fastly : jsval → jsval → FastlyClient.

Definition init (g : state) : state :=
  if ready g && negb (has_client g) then
    {| _service := _service g; _auth := _auth g;
       _fastly := Some (Fastly (_auth g) (_service g));
       _deployers := _deployers g; _checkpath := _checkpath g |}
  else g.
End Init.

(** *** The generated VCL *)

Definition select_header (n : nat) : string :=
  nl +:+ "      declare local var.i INTEGER;" +:+ nl
  +:+ "      set var.i = randomint(0, " +:+ pretty (Z.of_nat n - 1) +:+ ");"
  +:+ nl +:+ nl
  +:+ "      if (false) {}".

Definition select_branch (i : nat) (d : deployer) : string :=
  "if(var.i <= " +:+ pretty i +:+ " && backend.F_" +:+ name d
  +:+ ".healthy) {" +:+ nl
  +:+ "      set req.backend = F_" +:+ name d +:+ ";" +:+ nl
  +:+ "    }".

Definition select_fallback (d : deployer) : string :=
  "{" +:+ nl
  +:+ "      set req.backend = F_" +:+ name d +:+ ";" +:+ nl
  +:+ "      " +:+ to_str (customVCL d) +:+ nl
  +:+ "    }".

(** [this._deployers[0]] is [undefined] on an empty list, and reading
    its [name] throws. *)
Definition selectBackendVCL (g : state) : result string :=
  let vcl := select_header (length (_deployers g)) in
  let middle := imap select_branch (_deployers g) in
  match _deployers g !! 0%nat with
  | None => Throw (TypeError "Cannot read properties of undefined")
  | Some d0 =>
      let fallback := select_fallback d0 in
      Ok (join " else " (vcl :: middle ++ [fallback]))
  end.

Definition url_branch (d : deployer) : string :=
  nl +:+ "      if (req.backend == F_" +:+ name d +:+ ") {" +:+ nl
  +:+ "        set bereq.url = " +:+ urlVCL d +:+ ";" +:+ nl
  +:+ "      }" +:+ nl
  +:+ "      ".

Definition setURLVCL (g : state) : string :=
  join nl (url_branch <$> _deployers g).

(** *** deploy *)

Definition false_condition : Condition :=
  {| c_name := "false"; statement := "false"; c_type := "request" |}.

Definition healthcheck_of (g : state) (d : deployer) : Healthcheck :=
  {| check_interval := 60000;
     expected_response := 200;
     hc_host := host d;
     http_version := "1.1";
     method := "GET";
     initial := 1;
     hc_name := name d +:+ "Check";
     path := basePath d +:+ to_str (_checkpath g);
     threshold := 1;
     timeout := 5000;
     window := 2 |}.

Definition backend_of (d : deployer) : Backend :=
  {| hostname := host d;
     ssl_cert_hostname := host d;
     ssl_sni_hostname := host d;
     address := host d;
     override_host := host d;
     b_name := name d;
     healthcheck := name d +:+ "Check";
     error_threshold := 0;
     first_byte_timeout := 60000;
     weight := 100;
     connect_timeout := 5000;
     port := 443;
     between_bytes_timeout := 10000;
     shield := "";
     max_conn := 200;
     use_ssl := true;
     request_condition := "false" |}.

Definition logurl_content : string :=
  "set beresp.http.X-Backend-URL = bereq.url;" +:+ nl
  +:+ "        set beresp.http.X-Backend-Name = req.backend;".

(** Send a request; the promise it returns settles as the client
    answers. *)
Definition send (c : FastlyClient) (k : call)
    : M (St:=state) (result unit) :=
  emit (Call k) ;; ret (answers c k).

(** [l.map(f)] for an effectful [f]. *)
Fixpoint for_each {A B} (f : A → M (St:=state) (Ev:=event) B)
    (l : list A) : M (St:=state) (Ev:=event) (list B) :=
  match l with
  | [] => ret []
  | x :: l' =>
      let* y := f x in
      let* ys := for_each f l' in
      ret (y :: ys)
  end.

(** [Promise.all]: resolved when all are, rejected when one is (here
    with the first rejection in list order). *)
Fixpoint promise_all (l : list (result unit)) : result unit :=
  match l with
  | [] => Ok tt
  | Ok _ :: l' => promise_all l'
  | Throw e :: _ => Throw e
  end.

(** [// create condition] *)
Definition write_condition (c : FastlyClient) (newversion : Z)
    : M (St:=state) unit :=
  let* r := send c (WriteCondition newversion "false" false_condition) in
  await r.

(** [// set up health checks]: every request is sent, then all are
    awaited. *)
Definition write_healthchecks (c : FastlyClient) (newversion : Z)
    (g : state) : M (St:=state) unit :=
  let* hs := for_each
    (λ h, send c (WriteHealthcheck newversion (hc_name h) h))
    (healthcheck_of g <$> _deployers g) in
  await (promise_all hs).

(** [// set up backends]: every create is sent first; an update
    follows each create that was rejected; then all are awaited. *)
Definition write_backends (c : FastlyClient) (newversion : Z)
    (g : state) : M (St:=state) unit :=
  let backends := backend_of <$> _deployers g in
  let* created := for_each
    (λ b, send c (CreateBackend newversion b)) backends in
  let* settled := for_each
    (λ br, match br.2 with
           | Ok _ => ret (Ok tt)
           | Throw _ => send c (UpdateBackend newversion (b_name br.1) br.1)
           end)
    (zip backends created) in
  await (promise_all settled).

Definition backend_snippet (vcl : string) : Snippet :=
  {| s_name := "backend"; priority := 10; dynamic := 0;
     s_type := "recv"; content := vcl |}.

Definition missurl_snippet (g : state) : Snippet :=
  {| s_name := "missurl"; priority := 10; dynamic := 0;
     s_type := "miss"; content := setURLVCL g |}.

Definition passurl_snippet (g : state) : Snippet :=
  {| s_name := "passurl"; priority := 10; dynamic := 0;
     s_type := "miss"; content := setURLVCL g |}.

Definition logurl_snippet : Snippet :=
  {| s_name := "logurl"; priority := 10; dynamic := 0;
     s_type := "fetch"; content := logurl_content |}.

(** The four [writeSnippet] calls, one after the other. *)
Definition write_snippets (c : FastlyClient) (newversion : Z)
    (g : state) : M (St:=state) unit :=
  let* vcl := await (selectBackendVCL g) in
  let* r := send c (WriteSnippet newversion "backend"
                      (backend_snippet vcl)) in
  await r ;;
  let* r := send c (WriteSnippet newversion "missurl"
                      (missurl_snippet g)) in
  await r ;;
  let* r := send c (WriteSnippet newversion "passurl"
                      (passurl_snippet g)) in
  await r ;;
  let* r := send c (WriteSnippet newversion "logurl" logurl_snippet) in
  await r.

(** The callback of [transact]. *)
Definition operations (c : FastlyClient) (newversion : Z)
    : M (St:=state) unit :=
  let* g := get in
  write_condition c newversion ;;
  write_healthchecks c newversion g ;;
  write_backends c newversion g ;;
  write_snippets c newversion g.

Definition deploy : M (St:=state) unit :=
  emit (LogInfo "Set up Fastly Gateway") ;;
  let* g := get in
  match _fastly g with
  | None => throw (TypeError "Cannot read properties of null")
  | Some c =>
      let* newversion := await (transact_version c) in
      operations c newversion ;;
      await (transact_activate c)
  end.

End FastlyGateway.

(** ** The backend-selection snippet as a program

    The text [selectBackendVCL] generates is, read as VCL, a random draw
    followed by one [if ... else if ... else] chain.  [print] renders such
    a program as text, [run] executes it for a given draw and a given
    health of the backends. *)

Module VCL.

Inductive cond :=
| CFalse                                   (* [false] *)
| CDrawHealthy (i : nat) (backend : string).
    (* [var.i <= i && backend.B.healthy] *)

Inductive stmt :=
| SetBackend (backend : string)            (* [set req.backend = B;] *)
| Verbatim (text : string).

Record branch := {
  guard : cond;
  body : list stmt;
}.

(** [set var.i = randomint(rand_lo, rand_hi);] then the chain, whose
    last [else] is [otherwise]. *)
Record select := {
  rand_lo : Z;
  rand_hi : Z;
  chain : list branch;
  otherwise : list stmt;
}.

Definition print_stmt (s : stmt) : string :=
  match s with
  | SetBackend b => "set req.backend = " +:+ b +:+ ";"
  | Verbatim t => t
  end.

Definition print_body (l : list stmt) : string :=
  match l with
  | [] => "{}"
  | _ =>
      "{" +:+ nl
      +:+ String.concat "" ((λ s, "      " +:+ print_stmt s +:+ nl) <$> l)
      +:+ "    }"
  end.

Definition print_cond (c : cond) : string :=
  match c with
  | CFalse => "if (false) "
  | CDrawHealthy i b =>
      "if(var.i <= " +:+ pretty i +:+ " && backend." +:+ b +:+ ".healthy) "
  end.

Definition print_branch (b : branch) : string :=
  print_cond (guard b) +:+ print_body (body b).

Definition print (p : select) : string :=
  nl +:+ "      declare local var.i INTEGER;" +:+ nl
  +:+ "      set var.i = randomint(" +:+ pretty (rand_lo p) +:+ ", "
  +:+ pretty (rand_hi p) +:+ ");" +:+ nl +:+ nl
  +:+ "      "
  +:+ join " else " ((print_branch <$> chain p) ++ [print_body (otherwise p)]).

(** The randomint draw is any integer of the closed range. *)
Definition possible_draw (p : select) (r : Z) : Prop :=
  rand_lo p ≤ r ≤ rand_hi p.

Definition holds (draw : Z) (healthy : string → bool) (c : cond) : bool :=
  match c with
  | CFalse => false
  | CDrawHealthy i b => (draw <=? Z.of_nat i) && healthy b
  end.

(** The body of the first branch whose guard holds, or the last
    [else]. *)
Fixpoint run_chain (draw : Z) (healthy : string → bool)
    (bs : list branch) (last : list stmt) : list stmt :=
  match bs with
  | [] => last
  | b :: bs' =>
      if holds draw healthy (guard b) then body b
      else run_chain draw healthy bs' last
  end.

Definition run (p : select) (draw : Z) (healthy : string → bool)
    : list stmt :=
  run_chain draw healthy (chain p) (otherwise p).

(** The indices of the branches whose body is executed. *)
Fixpoint executed (draw : Z) (healthy : string → bool)
    (k : nat) (bs : list branch) : list nat :=
  match bs with
  | [] => []
  | b :: bs' =>
      if holds draw healthy (guard b) then [k]
      else executed draw healthy (S k) bs'
  end.

End VCL.

(** The VCL name of a deployer's backend. *)
Definition backend_id (d : FastlyGateway.deployer) : string :=
  "F_" +:+ FastlyGateway.name d.

(** The branch of the deployer at index [i]. *)
Definition selection_branch (i : nat) (d : FastlyGateway.deployer)
    : VCL.branch :=
  {| VCL.guard := VCL.CDrawHealthy i (backend_id d);
     VCL.body := [VCL.SetBackend (backend_id d)] |}.

(** The program [selectBackendVCL] generates for the deployers
    [d0 :: rest]. *)
Definition selection (d0 : FastlyGateway.deployer)
    (rest : list FastlyGateway.deployer) : VCL.select :=
  {| VCL.rand_lo := 0;
     VCL.rand_hi := Z.of_nat (length (d0 :: rest)) - 1;
     VCL.chain :=
       {| VCL.guard := VCL.CFalse; VCL.body := [] |}
       :: imap selection_branch (d0 :: rest);
     VCL.otherwise :=
       [VCL.SetBackend (backend_id d0);
        VCL.Verbatim (to_str (FastlyGateway.customVCL d0))] |}.

(** ** Reading the generated text back *)







(** ** What a run of [FastlyGateway.deploy] wrote *)

Module Written.
Import FastlyGateway.

Definition calls (t : list event) : list call :=
  omap (λ e, match e with Call k => Some k | LogInfo _ => None end) t.

Definition accepted (c : FastlyClient) (k : call) : bool :=
  match answers c k with Ok _ => true | Throw _ => false end.

(** The requests of the trace that the service accepted. *)
Definition written (c : FastlyClient) (t : list event) : list call :=
  List.filter (accepted c) (calls t).

Definition healthchecks (ks : list call) : list Healthcheck :=
  omap (λ k, match k with WriteHealthcheck _ _ h => Some h | _ => None end)
    ks.

Definition backends (ks : list call) : list Backend :=
  omap (λ k, match k with
             | CreateBackend _ b | UpdateBackend _ _ b => Some b
             | _ => None
             end) ks.

Definition snippets (ks : list call) : list Snippet :=
  omap (λ k, match k with WriteSnippet _ _ s => Some s | _ => None end) ks.

(** The requests a run of [deploy] sends on version [v], by stage. *)
Definition healthcheck_calls (v : Z) (g : state) : list call :=
  (λ h, WriteHealthcheck v (hc_name h) h)
  <$> (healthcheck_of g <$> _deployers g).

Definition create_calls (v : Z) (g : state) : list call :=
  CreateBackend v <$> (backend_of <$> _deployers g).

Definition update_calls (c : FastlyClient) (v : Z) (g : state)
    : list call :=
  omap (λ b, if accepted c (CreateBackend v b) then None
             else Some (UpdateBackend v (b_name b) b))
    (backend_of <$> _deployers g).

Definition snippet_calls (v : Z) (g : state) (vcl : string) : list call :=
  [WriteSnippet v "backend" (backend_snippet vcl);
   WriteSnippet v "missurl" (missurl_snippet g);
   WriteSnippet v "passurl" (passurl_snippet g);
   WriteSnippet v "logurl" logurl_snippet].

(** A client that accepts every request. *)
Definition accepting (v : Z) : FastlyClient :=
  {| transact_version := Ok v;
     answers := λ _, Ok tt;
     transact_activate := Ok tt |}.
End Written.

(** ** Sequences of builder calls on the gateway *)

Inductive gateway_call :=
| WithAuth (value : jsval)
| WithServiceID (value : jsval)
| WithDeployer (value : FastlyGateway.deployer)
| WithCheckpath (value : jsval)
| Init.

Definition apply_call (Fastly : jsval → jsval → FastlyGateway.FastlyClient)
    (g : FastlyGateway.state) (k : gateway_call) : FastlyGateway.state :=
  match k with
  | WithAuth v => FastlyGateway.withAuth v g
  | WithServiceID v => FastlyGateway.withServiceID v g
  | WithDeployer d => FastlyGateway.withDeployer d g
  | WithCheckpath v => FastlyGateway.withCheckpath v g
  | Init => FastlyGateway.init Fastly g
  end.

Definition apply_calls (Fastly : jsval → jsval → FastlyGateway.FastlyClient)
    (g : FastlyGateway.state) (ks : list gateway_call) : FastlyGateway.state :=
  foldl (apply_call Fastly) g ks.

(** ** Sample objects *)

Module Sample.
Import GoogleDeployer.

Definition base (pkg nm : string) : BaseConfig :=
  {| packageName := pkg; name := nm; version := "1.0.0";
     description := JSstr "a function"; nodeVersion := "12";
     memory := 256; updatedAt := "1611000000000"; params := [];
     zipFile := "dist/fn.zip" |}.

Definition google : GoogleConfig :=
  {| email := "deploy@proj.iam.gserviceaccount.com"; keyFile := "key.json";
     projectID := "proj"; region := "us-central1" |}.

Definition deployer (pkg nm : string)
    (client : option CloudFunctionsServiceClient) : state :=
  {| cfg := base pkg nm; _cfg := google; _client := client;
     _uploadURL := JSstr "https://storage.googleapis.com/upload";
     _function := None; _functionURL := JSundefined |}.
End Sample.

Module SampleService.
Import GoogleDeployer.

Definition not_found : js_error :=
  {| err_name := "Error"; err_message := "5 NOT_FOUND: function not found";
     err_metadata := Some ∅ |}.

Definition permission_denied : js_error :=
  {| err_name := "Error";
     err_message := "7 PERMISSION_DENIED: missing permission";
     err_metadata := Some {[ "grpc-status-details-bin" := "details" ]} |}.

Definition bad_request : js_error :=
  {| err_name := "Error";
     err_message := "3 INVALID_ARGUMENT: bad runtime";
     err_metadata :=
       Some {[ "google.rpc.badrequest-bin" := "runtime";
               "grpc-status-details-bin" := "details" ]} |}.

Definition deployed : CloudFunction :=
  {| httpsTrigger :=
       Some (JSstr "https://us-central1-proj.cloudfunctions.net/fn") |}.

(** The function does not exist yet; creating it works. *)
Definition fresh : CloudFunctionsServiceClient :=
  {| getFunction := λ _, Throw not_found;
     updateFunction := λ _, Throw not_found;
     createFunction_rpc := λ _ _, Ok (Ok deployed);
     setIamPolicy := λ _ _, Ok tt |}.

(** The function does not exist yet; creating it is refused. *)
Definition denying : CloudFunctionsServiceClient :=
  {| getFunction := λ _, Throw not_found;
     updateFunction := λ _, Throw not_found;
     createFunction_rpc := λ _ _, Throw permission_denied;
     setIamPolicy := λ _ _, Ok tt |}.

(** Creating the function is refused as a bad request. *)
Definition rejecting : CloudFunctionsServiceClient :=
  {| getFunction := λ _, Throw not_found;
     updateFunction := λ _, Throw not_found;
     createFunction_rpc := λ _ _, Throw bad_request;
     setIamPolicy := λ _ _, Ok tt |}.
End SampleService.

Module SampleGateway.
Import FastlyGateway.

Definition dq : string := String (ascii_of_nat 34) EmptyString.

(** [{name:"g", host:"g.example.com", basePath:"/", urlVCL:'"/x"'}] *)
Definition g : deployer :=
  {| name := "g"; host := "g.example.com"; basePath := "/";
     urlVCL := dq +:+ "/x" +:+ dq; customVCL := JSundefined |}.

Definition Fastly (auth service : jsval) : FastlyClient :=
  Written.accepting 2.

(** [new FastlyGateway(b).withAuth(..).withServiceID(..)
      .withDeployer(g).withCheckpath('/health')] *)
Definition configured : state :=
  withCheckpath (JSstr "/health")
    (withDeployer g
       (withServiceID (JSstr "service")
          (withAuth (JSstr "token") constructor))).

(** The same gateway with no deployer. *)
Definition empty : state :=
  withCheckpath (JSstr "/health")
    (withServiceID (JSstr "service")
       (withAuth (JSstr "token") constructor)).
End SampleGateway.

Module SampleThree.
Import FastlyGateway.

Definition a : deployer :=
  {| name := "aws"; host := "a.example.com"; basePath := "/prod";
     urlVCL := "req.url"; customVCL := JSstr "set req.http.x-aws = 1;" |}.

Definition b : deployer :=
  {| name := "google"; host := "b.example.com"; basePath := "/";
     urlVCL := "req.url"; customVCL := JSundefined |}.

Definition c : deployer :=
  {| name := "openwhisk"; host := "c.example.com"; basePath := "/api";
     urlVCL := "req.url"; customVCL := JSundefined |}.

Definition gateway : state :=
  withDeployer c (withDeployer b (withDeployer a SampleGateway.empty)).
End SampleThree.

Module SampleRuns.
(** The sample gateways after [init()]. *)
Definition single : FastlyGateway.state :=
  FastlyGateway.init SampleGateway.Fastly SampleGateway.configured.

Definition none : FastlyGateway.state :=
  FastlyGateway.init SampleGateway.Fastly SampleGateway.empty.
End SampleRuns.

(** ** GoogleDeployer: construction, upload and deploy

    The remaining methods of the deployer.  They run in the same monad,
    over the same fields; their trace also records the construction of
    the client, the upload-URL request and the HTTP upload. *)

Module GoogleDeploy.
Import GoogleDeployer.

(** [new GoogleDeployer(baseConfig, config)] *)
Definition constructor (baseConfig : BaseConfig) (config : GoogleConfig)
    : state :=
  {| cfg := baseConfig; _cfg := config; _client := None;
     _uploadURL := JSundefined; _function := None;
     _functionURL := JSundefined |}.

Definition validate (s : state) : result unit :=
  if ready s then Ok tt
  else Throw {| err_name := "Error";
                err_message :=
                  "Google target needs key file, email, and project ID";
                err_metadata := None |}.

(** The argument of [new CloudFunctionsServiceClient(...)]. *)
Record ClientOptions := {
  o_email : string;
  keyFilename : string;
  projectId : string;
}.

(** The upload: [fetch(uploadUrl, { method, headers, body })]; the body
    is the stream of the file [zipFile]. *)
Record PutRequest := {
  p_url : jsval;
  p_method : string;
  headers : list (string * string);
  body : string;
}.

(** What [fetch] resolves to. *)
Record Response := {
  status : Z;
}.

Inductive event :=
| Deployer (e : GoogleDeployer.event)
| NewClient (o : ClientOptions)
| GenerateUploadUrl (parent : string)
| Fetch (r : PutRequest).

(** What lies outside the deployer: [path.resolve(process.cwd, keyFile)],
    the constructor of the client, the [generateUploadUrl] method of the
    client, and [fetch]. *)
Record World := {
  path_resolve : string → result string;
  new_client : ClientOptions → result CloudFunctionsServiceClient;
  generateUploadUrl : string → result jsval;
  fetch : PutRequest → result Response;
}.

Definition set_client (c : CloudFunctionsServiceClient) (s : state) : state :=
  {| cfg := cfg s; _cfg := _cfg s; _client := Some c;
     _uploadURL := _uploadURL s; _function := _function s;
     _functionURL := _functionURL s |}.

Definition set_uploadURL (u : jsval) (s : state) : state :=
  {| cfg := cfg s; _cfg := _cfg s; _client := _client s;
     _uploadURL := u; _function := _function s;
     _functionURL := _functionURL s |}.

(** A method modelled over [GoogleDeployer.event], run here. *)
Definition lift {A} (m : M (St:=state) (Ev:=GoogleDeployer.event) A)
    : M (St:=state) (Ev:=event) A :=
  λ s, match m s with (s', t, r) => (s', Deployer <$> t, r) end.

Definition init (w : World) : M (St:=state) (Ev:=event) unit :=
  try_catch
    (let* s := get in
     let* key := await (path_resolve w (keyFile (_cfg s))) in
     let o := {| o_email := email (_cfg s); keyFilename := key;
                 projectId := projectID (_cfg s) |} in
     emit (NewClient o) ;;
     let* c := await (new_client w o) in
     modify (set_client c))
    (λ e,
       emit (Deployer (LogError
         [LStr ("Unable to authenticate with Google: " +:+ err_message e)])) ;;
       throw e).

Definition upload_request (s : state) (uploadUrl : jsval) : PutRequest :=
  {| p_url := uploadUrl;
     p_method := "PUT";
     headers := [("Content-Type", "application/zip");
                 ("x-goog-content-length-range", "0,104857600")];
     body := zipFile (cfg s) |}.

Definition uploadZIP (w : World) : M (St:=state) (Ev:=event) unit :=
  let* s := get in
  match _client s with
  | None => throw (TypeError "Cannot read properties of null")
  | Some _ =>
      emit (GenerateUploadUrl (location s)) ;;
      let* uploadUrl := await (generateUploadUrl w (location s)) in
      (* upload *)
      emit (Fetch (upload_request s uploadUrl)) ;;
      let* response := await (fetch w (upload_request s uploadUrl)) in
      modify (set_uploadURL uploadUrl)
  end.

(** [this.log.error(`Unable to deploy Google Cloud function:
    ${err.message}`, err)] *)
Definition deploy_log (err : js_error) : event :=
  Deployer (LogError
    [LStr ("Unable to deploy Google Cloud function: " +:+ err_message err);
     LErr err]).

(** The [catch] block of [deploy]. *)
Definition log_and_rethrow (err : js_error) : M (St:=state) (Ev:=event) unit :=
  emit (deploy_log err) ;;
  throw err.

(** The events that are requests to a remote service. *)
Definition is_request (e : event) : bool :=
  match e with
  | Deployer (Rpc _) | GenerateUploadUrl _ | Fetch _ => true
  | _ => false
  end.

Definition deploy (w : World) : M (St:=state) (Ev:=event) unit :=
  try_catch (uploadZIP w ;; lift createFunction) log_and_rethrow.

End GoogleDeploy.

Module SampleWorld.
Import GoogleDeployer GoogleDeploy.

Definition credentials_missing : js_error :=
  {| err_name := "Error"; err_message := "ENOENT: no such file, key.json";
     err_metadata := None |}.

Definition unavailable : js_error :=
  {| err_name := "Error"; err_message := "14 UNAVAILABLE";
     err_metadata := None |}.


(** The service creates the function but reports no trigger. *)
Definition untriggered : CloudFunctionsServiceClient :=
  {| getFunction := λ _, Throw SampleService.not_found;
     updateFunction := λ _, Throw SampleService.not_found;
     createFunction_rpc := λ _ _, Ok (Ok {| httpsTrigger := None |});
     setIamPolicy := λ _ _, Ok tt |}.

(** Everything works; the upload is answered with [status]. *)
Definition working (status : Z) : World :=
  {| path_resolve := λ f, Ok ("/work/" +:+ f);
     new_client := λ _, Ok SampleService.fresh;
     generateUploadUrl :=
       λ _, Ok (JSstr "https://storage.googleapis.com/signed");
     fetch := λ _, Ok {| GoogleDeploy.status := status |} |}.

(** The key file cannot be read. *)
Definition locked : World :=
  {| path_resolve := λ f, Ok ("/work/" +:+ f);
     new_client := λ _, Throw credentials_missing;
     generateUploadUrl := λ _, Throw unavailable;
     fetch := λ _, Throw unavailable |}.

(** No upload URL is issued. *)
Definition offline : World :=
  {| path_resolve := λ f, Ok ("/work/" +:+ f);
     new_client := λ _, Ok SampleService.fresh;
     generateUploadUrl := λ _, Throw unavailable;
     fetch := λ _, Throw unavailable |}.

Definition fresh_deployer : state :=
  GoogleDeploy.constructor (Sample.base "helix-services" "dispatch@4.7.1")
    Sample.google.
End SampleWorld.

Module SampleClients.
Import FastlyGateway.

Definition conflict : js_error :=
  {| err_name := "FastlyError"; err_message := "409 Conflict";
     err_metadata := None |}.

Definition bad_gateway : js_error :=
  {| err_name := "FastlyError"; err_message := "502 Bad Gateway";
     err_metadata := None |}.

(** The backends exist already: every creation is rejected. *)
Definition conflicting (v : Z) : FastlyClient :=
  {| transact_version := Ok v;
     answers := λ k, match k with
                     | CreateBackend _ _ => Throw conflict
                     | _ => Ok tt
                     end;
     transact_activate := Ok tt |}.

(** Every health check is rejected. *)
Definition unchecked (v : Z) : FastlyClient :=
  {| transact_version := Ok v;
     answers := λ k, match k with
                     | WriteHealthcheck _ _ _ => Throw bad_gateway
                     | _ => Ok tt
                     end;
     transact_activate := Ok tt |}.

(** The gateway [g] holding the client [c]. *)
Definition with_client (c : FastlyClient) (g : state) : state :=
  {| _service := _service g; _auth := _auth g; _fastly := Some c;
     _deployers := _deployers g; _checkpath := _checkpath g |}.
End SampleClients.

(** * Properties *)

(** ** Facts about the string operations *)


Lemma count_replace_all_same c r s :
  c ≠ r → count_char c (replace_all c r s) = 0%nat.
Proof.
  intros Hne. induction s as [|a s IH]; simpl; [done|].
  rewrite IH. destruct (Ascii.eqb_spec a c) as [->|Ha].
  - destruct (Ascii.eqb_spec r c); [congruence | done].
  - destruct (Ascii.eqb_spec a c); [congruence | done].
Qed.

Lemma count_replace_all_other c r d s :
  d ≠ c → d ≠ r → count_char d (replace_all c r s) = count_char d s.
Proof.
  intros Hc Hr. induction s as [|a s IH]; simpl; [done|].
  rewrite IH. destruct (Ascii.eqb_spec a c) as [->|Ha]; [|done].
  destruct (Ascii.eqb_spec r d); [congruence|].
  destruct (Ascii.eqb_spec c d); [congruence | done].
Qed.


Lemma count_replace_first_other c r d s :
  d ≠ c → d ≠ r → count_char d (replace_first c r s) = count_char d s.
Proof.
  intros Hc Hr. induction s as [|a s IH]; simpl; [done|].
  destruct (Ascii.eqb_spec a c) as [->|Ha]; simpl.
  - destruct (Ascii.eqb_spec r d); [congruence|].
    destruct (Ascii.eqb_spec c d); [congruence | done].
  - by rewrite IH.
Qed.

(** ** GoogleDeployer: the function name *)






(** ** GoogleDeployer: the test probe *)

(** C8: while [_functionURL] is unset (or otherwise falsy), [test()]
    passes to [testRequest] the fallback URL
    [https://{region}-{projectID}.cloudfunctions.net/{fullFunctionName}],
    the header name [X-Cloud-Trace-Context] and [retry404: 1], and
    returns what [testRequest] returns. *)
Theorem test_probes_fallback_url
    (testRequest : GoogleDeployer.TestOptions → result unit)
    (s : GoogleDeployer.state) :
  truthy (GoogleDeployer._functionURL s) = false →
  let o :=
    {| GoogleDeployer.url :=
         "https://" +:+ GoogleDeployer.region (GoogleDeployer._cfg s)
         +:+ "-" +:+ GoogleDeployer.projectID (GoogleDeployer._cfg s)
         +:+ ".cloudfunctions.net/" +:+ GoogleDeployer.fullFunctionName s;
       GoogleDeployer.idHeader := "X-Cloud-Trace-Context";
       GoogleDeployer.retry404 := 1 |} in
  GoogleDeployer.test testRequest s
  = (s, [GoogleDeployer.TestRequest o], testRequest o).
Proof.
  intros Hunset o. unfold GoogleDeployer.test, bind, get, emit, await.
  subst o. unfold GoogleDeployer.test_url. rewrite Hunset. reflexivity.
Qed.

Lemma test_probes_fallback_url_witness :
  truthy (GoogleDeployer._functionURL
            (Sample.deployer "helix-services" "dispatch@4.7.1" None)) = false
  ∧ GoogleDeployer.test (λ _, Ok tt)
      (Sample.deployer "helix-services" "dispatch@4.7.1" None)
    = (Sample.deployer "helix-services" "dispatch@4.7.1" None,
       [GoogleDeployer.TestRequest
          {| GoogleDeployer.url :=
               "https://us-central1-proj.cloudfunctions.net/helix-services--dispatch_4_7_1";
             GoogleDeployer.idHeader := "X-Cloud-Trace-Context";
             GoogleDeployer.retry404 := 1 |}],
       Ok tt).
Proof.
  split; [reflexivity|].
  apply (test_probes_fallback_url (λ _, Ok tt)
           (Sample.deployer "helix-services" "dispatch@4.7.1" None)).
  reflexivity.
Defined.

(** Once a deploy has stored the live URL, [test()] probes that URL. *)
Lemma test_probes_live_url (s : GoogleDeployer.state) (u : string) :
  GoogleDeployer._functionURL s = JSstr u → u ≠ "" →
  GoogleDeployer.test_url s = u.
Proof.
  intros Hu Hne. unfold GoogleDeployer.test_url. rewrite Hu. simpl.
  destruct (String.eqb_spec u ""); [done | reflexivity].
Qed.

(** ** GoogleDeployer: createFunction *)

Section CreateFunction.
Import GoogleDeployer.

(** A failed lookup leaves [exists] false. *)
Lemma lookup_exists_false (s : state) (e : js_error) :
  outcome (lookup (resource_name s) s) = Throw e →
  outcome (lookup_exists (resource_name s) s) = Ok false.
Proof.
  unfold lookup_exists, try_catch, bind, outcome.
  destruct (lookup (resource_name s) s) as [[s1 t1] [[]|e1]]; simpl;
    [discriminate | reflexivity].
Qed.

(** A lookup that resolves sets [exists]. *)
Lemma lookup_exists_true (s : state) :
  outcome (lookup (resource_name s) s) = Ok tt →
  outcome (lookup_exists (resource_name s) s) = Ok true.
Proof.
  unfold lookup_exists, try_catch, bind, outcome.
  destruct (lookup (resource_name s) s) as [[s1 t1] [[]|e1]]; simpl;
    [reflexivity | discriminate].
Qed.
End CreateFunction.

Ltac not_in_trace :=
  simpl;
  repeat (rewrite not_elem_of_app || rewrite not_elem_of_cons);
  repeat split; try discriminate; try apply not_elem_of_nil.

(** Case analysis on every answer of the service a run depends on. *)
Ltac split_answers :=
  repeat (simpl;
    match goal with
    | |- context [match ?x with Ok _ => _ | Throw _ => _ end] => destruct x
    | |- context [match ?x with Some _ => _ | None => _ end] => destruct x
    | f : GoogleDeployer.CloudFunction |- _ => destruct f
    end);
  simpl.

Ltac unfold_run :=
  unfold GoogleDeployer.createFunction, GoogleDeployer.lookup_exists,
    GoogleDeployer.lookup, GoogleDeployer.create_or_update,
    GoogleDeployer.report_and_rethrow, GoogleDeployer.metadata_get,
    GoogleDeployer.client_call, try_catch, bind, get, emit, await, ret,
    throw, modify, outcome, trace.

Section CreateFunctionBranch.
Import GoogleDeployer.

(** C5: when the existence lookup throws, whatever the reason,
    [exists] is false, no [updateFunction] request is ever sent, and
    the request that follows the lookup is [createFunction]. *)
Theorem createFunction_lookup_throws_creates (s : state) (e : js_error) :
  outcome (lookup (resource_name s) s) = Throw e →
  outcome (lookup_exists (resource_name s) s) = Ok false
  ∧ (∀ f, Rpc (UpdateFunction f) ∉ trace (createFunction s))
  ∧ (∀ c, _client s = Some c →
       ∃ rest, trace (createFunction s)
               = Rpc (GetFunction (resource_name s))
                 :: Rpc (CreateFunction (location s)
                           (function_of s (resource_name s)))
                 :: rest).
Proof.
  intros Hthrow. split; [by eapply lookup_exists_false|].
  revert Hthrow. unfold_run.
  destruct s as [b gc [c|] up fn furl]; simpl.
  - destruct (getFunction c _) as [[]|e0]; simpl; [discriminate|].
    intros _. split.
    + intros f. split_answers; not_in_trace.
    + intros ? [= <-]. split_answers; eauto.
  - intros _. split; [intros f; not_in_trace | done].
Qed.

(** The other way round: a lookup that resolves leads to the update
    branch. *)
Lemma createFunction_lookup_resolves_updates (s : state)
    (c : CloudFunctionsServiceClient) :
  _client s = Some c →
  getFunction c (resource_name s) = Ok tt →
  ∃ rest, trace (createFunction s)
          = Rpc (GetFunction (resource_name s))
            :: Rpc (UpdateFunction (function_of s (resource_name s)))
            :: rest.
Proof.
  unfold_run. destruct s as [b gc c' up fn furl]; simpl.
  intros -> Hget. rewrite Hget. split_answers; eauto.
Qed.
End CreateFunctionBranch.

Lemma createFunction_lookup_throws_creates_witness :
  outcome (GoogleDeployer.lookup
             (GoogleDeployer.resource_name
                (Sample.deployer "helix-services" "dispatch@4.7.1"
                   (Some SampleService.fresh)))
             (Sample.deployer "helix-services" "dispatch@4.7.1"
                (Some SampleService.fresh)))
  = Throw SampleService.not_found
  ∧ outcome (GoogleDeployer.lookup_exists
               (GoogleDeployer.resource_name
                  (Sample.deployer "helix-services" "dispatch@4.7.1"
                     (Some SampleService.fresh)))
               (Sample.deployer "helix-services" "dispatch@4.7.1"
                  (Some SampleService.fresh)))
    = Ok false.
Proof.
  split; [reflexivity|].
  apply (createFunction_lookup_throws_creates
           (Sample.deployer "helix-services" "dispatch@4.7.1"
              (Some SampleService.fresh))
           SampleService.not_found).
  reflexivity.
Defined.

Section CreateFunctionErrors.
Import GoogleDeployer.

(** When the error carries both diagnostic entries, the handler logs
    the error and both entries, and throws the same error again. *)
Lemma report_and_rethrow_complete (err : js_error) (m : gmap string string)
    (bad details : string) (s : state) :
  err_metadata err = Some m →
  m !! "google.rpc.badrequest-bin" = Some bad →
  m !! "grpc-status-details-bin" = Some details →
  report_and_rethrow err s
  = (s, [LogError [LErr err];
         LogError [LStr "bad request:"; LStr bad];
         LogError [LStr "details:"; LStr details]],
     Throw err).
Proof.
  intros Hm Hbad Hdetails.
  unfold report_and_rethrow, metadata_get, bind, emit, throw, ret.
  rewrite Hm, Hbad, Hdetails. reflexivity.
Qed.

(** When an entry is missing (or the error has no metadata at all),
    reading it throws a [TypeError], which replaces the error. *)
Lemma report_and_rethrow_masks (err : js_error) (s : state) :
  (∀ m, err_metadata err = Some m →
        m !! "google.rpc.badrequest-bin" = None) →
  report_and_rethrow err s
  = (s, [LogError [LErr err]],
     Throw (TypeError "Cannot read properties of undefined")).
Proof.
  intros Hmissing.
  unfold report_and_rethrow, metadata_get, bind, emit, throw, ret.
  destruct (err_metadata err) as [m|]; [|reflexivity].
  rewrite (Hmissing m eq_refl). reflexivity.
Qed.

(** The lookup never throws and leaves the fields alone. *)
Lemma lookup_exists_total (name : string) (s : state) :
  ∃ t b, lookup_exists name s = (s, t, Ok b).
Proof.
  unfold lookup_exists, lookup, client_call, try_catch, bind, get, emit,
    await, ret, throw.
  split_answers; eauto.
Qed.

(** An error of the create / update / IAM stage with both diagnostic
    entries reaches the caller unchanged, after the three log lines. *)
Lemma createFunction_rethrows (s : state) (t : list event) (b : bool)
    (err : js_error) (m : gmap string string) (bad details : string) :
  lookup_exists (resource_name s) s = (s, t, Ok b) →
  outcome (create_or_update (resource_name s) b s) = Throw err →
  err_metadata err = Some m →
  m !! "google.rpc.badrequest-bin" = Some bad →
  m !! "grpc-status-details-bin" = Some details →
  outcome (createFunction s) = Throw err
  ∧ ∃ before,
      trace (createFunction s)
      = before ++ [LogError [LErr err];
                   LogError [LStr "bad request:"; LStr bad];
                   LogError [LStr "details:"; LStr details]].
Proof.
  intros Hlook Hstage Hm Hbad Hdetails.
  destruct (create_or_update (resource_name s) b s) as [[s1 t1] r1] eqn:Hrun.
  simpl in Hstage. subst r1.
  assert (Hall : createFunction s
                 = (s1, t ++ t1 ++ [LogError [LErr err];
                      LogError [LStr "bad request:"; LStr bad];
                      LogError [LStr "details:"; LStr details]],
                    Throw err)).
  { unfold createFunction, bind, get, try_catch. cbv beta iota zeta.
    rewrite Hlook. cbv beta iota zeta. rewrite Hrun.
    rewrite (report_and_rethrow_complete err m bad details s1
               Hm Hbad Hdetails).
    reflexivity. }
  rewrite Hall. split; [reflexivity|].
  exists (t ++ t1). simpl. by rewrite <- app_assoc.
Qed.
End CreateFunctionErrors.

(** A bad-request error has both entries: it is reported in full and
    reaches the caller. *)
Example createFunction_reports_bad_request :
  let s := Sample.deployer "helix-services" "dispatch@4.7.1"
             (Some SampleService.rejecting) in
  outcome (GoogleDeployer.createFunction s) = Throw SampleService.bad_request
  ∧ trace (GoogleDeployer.createFunction s)
    = [GoogleDeployer.Rpc
         (GoogleDeployer.GetFunction (GoogleDeployer.resource_name s));
       GoogleDeployer.Rpc
         (GoogleDeployer.CreateFunction (GoogleDeployer.location s)
            (GoogleDeployer.function_of s (GoogleDeployer.resource_name s)));
       GoogleDeployer.LogError
         [GoogleDeployer.LErr SampleService.bad_request];
       GoogleDeployer.LogError
         [GoogleDeployer.LStr "bad request:"; GoogleDeployer.LStr "runtime"];
       GoogleDeployer.LogError
         [GoogleDeployer.LStr "details:"; GoogleDeployer.LStr "details"]].
Proof. split; vm_compute; reflexivity. Qed.

(** A run in which everything works: the function is created, made
    public, and its URL stored. *)
Example createFunction_fresh :
  let s := Sample.deployer "helix-services" "dispatch@4.7.1"
             (Some SampleService.fresh) in
  outcome (GoogleDeployer.createFunction s) = Ok tt
  ∧ GoogleDeployer._functionURL
      (final_state (GoogleDeployer.createFunction s))
    = JSstr "https://us-central1-proj.cloudfunctions.net/fn"
  ∧ GoogleDeployer.f_name
      (GoogleDeployer.function_of s (GoogleDeployer.resource_name s))
    = "projects/proj/locations/us-central1/functions/helix-services--dispatch_4_7_1"
  ∧ GoogleDeployer.labels
      (GoogleDeployer.function_of s (GoogleDeployer.resource_name s))
    = [("pkgversion", "1_0_0"); ("updated", "1611000000000")].
Proof. repeat split; vm_compute; reflexivity. Qed.

(** C9 at a failing input: the service refuses [createFunction] with a
    gRPC error that has no [google.rpc.badrequest-bin] entry.  The
    handler logs the error, then fails reading the missing entry: the
    caller receives a [TypeError], not the error of the service, and the
    diagnostic entries are never logged. *)
Theorem createFunction_masks_error :
  let s := Sample.deployer "helix-services" "dispatch@4.7.1"
             (Some SampleService.denying) in
  GoogleDeployer.createFunction s
  = (s,
     [GoogleDeployer.Rpc
        (GoogleDeployer.GetFunction (GoogleDeployer.resource_name s));
      GoogleDeployer.Rpc
        (GoogleDeployer.CreateFunction (GoogleDeployer.location s)
           (GoogleDeployer.function_of s (GoogleDeployer.resource_name s)));
      GoogleDeployer.LogError
        [GoogleDeployer.LErr SampleService.permission_denied]],
     Throw (TypeError "Cannot read properties of undefined"))
  ∧ TypeError "Cannot read properties of undefined"
    ≠ SampleService.permission_denied.
Proof. split; [vm_compute; reflexivity | discriminate]. Qed.

(** ** FastlyGateway: ready and init *)

Section GatewayInit.
Import FastlyGateway.
Variable Fastly : jsval → jsval → FastlyClient.

Lemma ready_iff (g : state) :
  ready g = true
  ↔ truthy (_service g) = true ∧ truthy (_auth g) = true
    ∧ truthy (_checkpath g) = true.
Proof. unfold ready. rewrite !andb_true_iff. tauto. Qed.

Lemma init_constructs (g : state) :
  ready g = true → _fastly g = None →
  _fastly (init Fastly g) = Some (Fastly (_auth g) (_service g)).
Proof.
  intros Hready Hnone. unfold init, has_client.
  by rewrite Hready, Hnone.
Qed.

Lemma init_unchanged (g : state) :
  ready g = false ∨ is_Some (_fastly g) → init Fastly g = g.
Proof.
  unfold init, has_client. intros [Hready | [c Hc]].
  - by rewrite Hready.
  - rewrite Hc. by rewrite andb_false_r.
Qed.

Lemma init_keeps_client (g : state) (c : FastlyClient) :
  _fastly g = Some c → _fastly (init Fastly g) = Some c.
Proof. intros Hc. rewrite init_unchanged; eauto. Qed.

Lemma apply_call_keeps_client (g : state) (k : gateway_call)
    (c : FastlyClient) :
  _fastly g = Some c → _fastly (apply_call Fastly g k) = Some c.
Proof.
  intros Hc. destruct k; simpl; try done. by apply init_keeps_client.
Qed.

Lemma apply_calls_keep_client (ks : list gateway_call) (g : state)
    (c : FastlyClient) :
  _fastly g = Some c → _fastly (apply_calls Fastly g ks) = Some c.
Proof.
  revert g. induction ks as [|k ks IH]; intros g Hc; [done|].
  apply IH. by apply apply_call_keeps_client.
Qed.

(** C10: [init()] constructs the client, from the current auth and
    service ID, exactly when [ready()] holds and there is no client
    yet; otherwise it changes nothing; calling it twice is calling it
    once; and once [_fastly] is set, no sequence of builder calls and
    further [init()] calls changes it. *)
Theorem init_idempotent (g : state) :
  (ready g = true → _fastly g = None →
   _fastly (init Fastly g) = Some (Fastly (_auth g) (_service g)))
  ∧ (ready g = false ∨ is_Some (_fastly g) → init Fastly g = g)
  ∧ init Fastly (init Fastly g) = init Fastly g
  ∧ (∀ c ks, _fastly g = Some c →
             _fastly (apply_calls Fastly g ks) = Some c).
Proof.
  split; [apply init_constructs|].
  split; [apply init_unchanged|].
  split; [|intros c ks; apply apply_calls_keep_client].
  destruct (ready g) eqn:Hready.
  - destruct (_fastly g) as [c|] eqn:Hc.
    + assert (Hg : init Fastly g = g) by (apply init_unchanged; eauto).
      by rewrite !Hg.
    + apply init_unchanged. right.
      rewrite (init_constructs g Hready Hc). eauto.
  - assert (Hg : init Fastly g = g) by (apply init_unchanged; eauto).
    by rewrite !Hg.
Qed.
End GatewayInit.

Lemma init_idempotent_witness :
  FastlyGateway._fastly
    (FastlyGateway.init SampleGateway.Fastly SampleGateway.configured)
  = Some (SampleGateway.Fastly (JSstr "token") (JSstr "service"))
  ∧ FastlyGateway._fastly
      (apply_calls SampleGateway.Fastly
         (FastlyGateway.init SampleGateway.Fastly SampleGateway.configured)
         [WithAuth (JSstr "other"); WithServiceID JSundefined; Init;
          WithServiceID (JSstr "elsewhere"); Init])
    = Some (SampleGateway.Fastly (JSstr "token") (JSstr "service")).
Proof.
  split.
  - apply (init_idempotent SampleGateway.Fastly SampleGateway.configured);
      reflexivity.
  - apply (init_idempotent SampleGateway.Fastly
             (FastlyGateway.init SampleGateway.Fastly
                SampleGateway.configured)).
    reflexivity.
Defined.

(** ** FastlyGateway: the backend-selection snippet *)

Lemma string_app_cons (x : ascii) (a b : string) :
  String x a +:+ b = String x (a +:+ b).
Proof. reflexivity. Qed.

Lemma string_app_nil_l (a : string) : "" +:+ a = a.
Proof. reflexivity. Qed.

Lemma string_app_assoc (a b c : string) :
  (a +:+ b) +:+ c = a +:+ (b +:+ c).
Proof.
  induction a as [|x a IH]; [done|].
  rewrite !string_app_cons. by f_equal.
Qed.

Lemma join_cons_app (sep a x : string) (l : list string) :
  join sep ((a +:+ x) :: l) = a +:+ join sep (x :: l).
Proof.
  unfold join. destruct l as [|y l]; cbn [String.concat]; [done|].
  by rewrite string_app_assoc.
Qed.

(** Both sides are the same characters, grouped differently. *)
Create Rewrite HintDb text.
#[local] Hint Rewrite string_app_assoc string_app_cons string_app_nil_l
  : text.

Ltac same_text := autorewrite with text; reflexivity.

Section SelectBackend.
Import FastlyGateway.

Lemma print_select_branch (i : nat) (d : deployer) :
  VCL.print_branch (selection_branch i d) = select_branch i d.
Proof.
  unfold VCL.print_branch, VCL.print_cond, VCL.print_body, VCL.print_stmt,
    selection_branch, backend_id, select_branch.
  cbn -[pretty]. generalize (pretty i). intros p. same_text.
Qed.

Lemma print_select_chain (ds : list deployer) :
  VCL.print_branch <$> imap selection_branch ds = imap select_branch ds.
Proof.
  rewrite fmap_imap. apply imap_ext. intros i d _.
  apply print_select_branch.
Qed.

Lemma print_select_fallback (d : deployer) :
  VCL.print_body
    [VCL.SetBackend (backend_id d); VCL.Verbatim (to_str (customVCL d))]
  = select_fallback d.
Proof.
  unfold VCL.print_body, VCL.print_stmt, backend_id, select_fallback.
  cbn. same_text.
Qed.

(** The text [selectBackendVCL] returns is the program [selection],
    printed. *)
Lemma selectBackendVCL_print (g : state) (d0 : deployer)
    (rest : list deployer) :
  _deployers g = d0 :: rest →
  selectBackendVCL g = Ok (VCL.print (selection d0 rest)).
Proof.
  intros Hds. unfold selectBackendVCL. rewrite Hds.
  change ((d0 :: rest) !! 0%nat) with (Some d0). cbv beta iota zeta.
  f_equal. unfold VCL.print, selection. cbn [VCL.chain VCL.otherwise
    VCL.rand_lo VCL.rand_hi].
  rewrite fmap_cons, print_select_chain, print_select_fallback.
  unfold select_header.
  change (VCL.print_branch {| VCL.guard := VCL.CFalse; VCL.body := [] |})
    with "if (false) {}".
  rewrite <- app_comm_cons.
  generalize (imap select_branch (d0 :: rest) ++ [select_fallback d0]).
  generalize (pretty (Z.of_nat (length (d0 :: rest)) - 1)).
  intros hi l.
  replace (nl +:+ "      declare local var.i INTEGER;" +:+ nl
           +:+ "      set var.i = randomint(0, " +:+ hi +:+ ");"
           +:+ nl +:+ nl +:+ "      if (false) {}")
    with ((nl +:+ "      declare local var.i INTEGER;" +:+ nl
           +:+ "      set var.i = randomint(0, " +:+ hi +:+ ");"
           +:+ nl +:+ nl +:+ "      ") +:+ "if (false) {}")
    by same_text.
  rewrite join_cons_app.
  generalize (join " else " ("if (false) {}" :: l)). intros tail.
  change (pretty 0) with "0". same_text.
Qed.
End SelectBackend.

Section Routing.
Import FastlyGateway.
Variable healthy : string → bool.

Lemma imap_selection_cons (k : nat) (d : deployer) (ds : list deployer) :
  imap (λ i, selection_branch (k + i)) (d :: ds)
  = selection_branch k d :: imap (λ i, selection_branch (S k + i)) ds.
Proof.
  rewrite imap_cons, Nat.add_0_r. f_equal.
  apply imap_ext. intros i x _. simpl. f_equal. lia.
Qed.

(** With every backend healthy, the draw [r] runs the branch of the
    deployer at index [r], and no other. *)
Lemma run_chain_healthy (ds : list deployer) :
  ∀ (k j : nat) (r : Z) (last : list VCL.stmt),
    (∀ d, d ∈ ds → healthy (backend_id d) = true) →
    Z.of_nat k ≤ r < Z.of_nat k + Z.of_nat (length ds) →
    ∃ d, ds !! (Z.to_nat r - k)%nat = Some d
         ∧ VCL.run_chain r healthy
             (imap (λ i, selection_branch (k + i)) ds) last
           = [VCL.SetBackend (backend_id d)]
         ∧ VCL.executed r healthy j
             (imap (λ i, selection_branch (k + i)) ds)
           = [(j + (Z.to_nat r - k))%nat].
Proof.
  induction ds as [|d ds IH]; intros k j r last Hall Hr.
  { simpl in Hr. lia. }
  rewrite imap_selection_cons.
  specialize (IH (S k) (S j) r last).
  set (tl := imap (λ i, selection_branch (S k + i)) ds) in *.
  simpl. rewrite (Hall d) by left. rewrite andb_true_r.
  destruct (Z.leb_spec r (Z.of_nat k)) as [Hle|Hgt].
  - exists d. replace (Z.to_nat r - k)%nat with 0%nat by lia.
    rewrite Nat.add_0_r. done.
  - destruct IH as (d' & Hd' & Hrun & Hex).
    + intros x Hx. apply Hall. by right.
    + simpl in Hr. lia.
    + exists d'. rewrite Hrun, Hex.
      replace (Z.to_nat r - k)%nat with (S (Z.to_nat r - S k)) by lia.
      split; [done|]. split; [done|]. f_equal. lia.
Qed.

(** With no backend healthy, no branch runs: control reaches the last
    [else]. *)
Lemma run_chain_unhealthy (ds : list deployer) :
  ∀ (k j : nat) (r : Z) (last : list VCL.stmt),
    (∀ d, d ∈ ds → healthy (backend_id d) = false) →
    VCL.run_chain r healthy
      (imap (λ i, selection_branch (k + i)) ds) last = last
    ∧ VCL.executed r healthy j
        (imap (λ i, selection_branch (k + i)) ds) = [].
Proof.
  induction ds as [|d ds IH]; intros k j r last Hnone; [done|].
  rewrite imap_selection_cons.
  specialize (IH (S k) (S j) r last).
  set (tl := imap (λ i, selection_branch (S k + i)) ds) in *.
  simpl. rewrite (Hnone d) by left. rewrite andb_false_r.
  apply IH. intros x Hx. apply Hnone. by right.
Qed.
End Routing.

(** C1: for a non-empty deployer list of length N, the snippet draws
    [randomint(0, N-1)]; when every backend is healthy, each possible
    draw [r] executes exactly one branch of the chain, the one that
    selects the deployer at index [r]; when no backend is healthy, no
    indexed branch is executed and the last [else] selects deployer 0. *)
Theorem selectBackendVCL_routes (g : FastlyGateway.state)
    (d0 : FastlyGateway.deployer) (rest : list FastlyGateway.deployer) :
  FastlyGateway._deployers g = d0 :: rest →
  let p := selection d0 rest in
  let N := Z.of_nat (length (FastlyGateway._deployers g)) in
  FastlyGateway.selectBackendVCL g = Ok (VCL.print p)
  ∧ (VCL.rand_lo p = 0 ∧ VCL.rand_hi p = N - 1)
  ∧ (∀ healthy r,
       VCL.possible_draw p r →
       (∀ d, d ∈ FastlyGateway._deployers g → healthy (backend_id d) = true) →
       ∃ d, FastlyGateway._deployers g !! Z.to_nat r = Some d
            ∧ VCL.run p r healthy = [VCL.SetBackend (backend_id d)]
            ∧ VCL.executed r healthy 0 (VCL.chain p) = [S (Z.to_nat r)])
  ∧ (∀ healthy r,
       (∀ d, d ∈ FastlyGateway._deployers g → healthy (backend_id d) = false) →
       VCL.run p r healthy
       = [VCL.SetBackend (backend_id d0);
          VCL.Verbatim (to_str (FastlyGateway.customVCL d0))]
       ∧ VCL.executed r healthy 0 (VCL.chain p) = []).
Proof.
  intros Hds p N. subst p N. rewrite Hds.
  split; [by apply selectBackendVCL_print|].
  split; [done|].
  unfold VCL.run, VCL.possible_draw, selection.
  cbn [VCL.chain VCL.otherwise VCL.rand_lo VCL.rand_hi].
  split.
  - intros healthy r Hr Hall.
    destruct (run_chain_healthy healthy (d0 :: rest) 0 1 r
                [VCL.SetBackend (backend_id d0);
                 VCL.Verbatim (to_str (FastlyGateway.customVCL d0))]
                Hall) as (d & Hd & Hrun & Hex); [lia|].
    exists d. rewrite Nat.sub_0_r in Hd, Hex. done.
  - intros healthy r Hnone.
    apply (run_chain_unhealthy healthy (d0 :: rest) 0 1 r _ Hnone).
Qed.

Lemma selectBackendVCL_routes_witness :
  FastlyGateway.selectBackendVCL SampleThree.gateway
  = Ok (VCL.print (selection SampleThree.a [SampleThree.b; SampleThree.c]))
  ∧ VCL.run (selection SampleThree.a [SampleThree.b; SampleThree.c])
      1 (λ _, true)
    = [VCL.SetBackend "F_google"]
  ∧ VCL.run (selection SampleThree.a [SampleThree.b; SampleThree.c])
      1 (λ _, false)
    = [VCL.SetBackend "F_aws"; VCL.Verbatim "set req.http.x-aws = 1;"].
Proof.
  destruct (selectBackendVCL_routes SampleThree.gateway SampleThree.a
              [SampleThree.b; SampleThree.c] eq_refl)
    as (Hprint & _ & Hhealthy & Hnone).
  split; [exact Hprint|]. split.
  - destruct (Hhealthy (λ _, true) 1) as (d & Hd & Hrun & _).
    + unfold VCL.possible_draw. simpl. lia.
    + reflexivity.
    + injection Hd as <-. exact Hrun.
  - destruct (Hnone (λ _, false) 1) as [Hrun _]; [reflexivity|].
    exact Hrun.
Defined.

(** C7: with the deployers [A; B; C], the generated text is the header,
    then A's own branch with index 0, then the branches of B and C with
    indices 1 and 2, then the unconditional last [else], which selects A
    again; so reads the program: A's branch is guarded by
    [var.i <= 0 && backend.F_A.healthy], the last [else] sets [F_A]. *)
Theorem selectBackendVCL_three (g : FastlyGateway.state)
    (A B C : FastlyGateway.deployer) :
  FastlyGateway._deployers g = [A; B; C] →
  FastlyGateway.selectBackendVCL g
  = Ok (FastlyGateway.select_header 3
        +:+ " else "
        +:+ ("if(var.i <= 0 && backend.F_" +:+ FastlyGateway.name A
             +:+ ".healthy) {" +:+ nl
             +:+ "      set req.backend = F_" +:+ FastlyGateway.name A
             +:+ ";" +:+ nl +:+ "    }")
        +:+ " else " +:+ FastlyGateway.select_branch 1 B
        +:+ " else " +:+ FastlyGateway.select_branch 2 C
        +:+ " else "
        +:+ ("{" +:+ nl
             +:+ "      set req.backend = F_" +:+ FastlyGateway.name A
             +:+ ";" +:+ nl
             +:+ "      " +:+ to_str (FastlyGateway.customVCL A) +:+ nl
             +:+ "    }"))
  ∧ FastlyGateway.selectBackendVCL g = Ok (VCL.print (selection A [B; C]))
  ∧ VCL.chain (selection A [B; C])
    = [ {| VCL.guard := VCL.CFalse; VCL.body := [] |};
        {| VCL.guard := VCL.CDrawHealthy 0 (backend_id A);
           VCL.body := [VCL.SetBackend (backend_id A)] |};
        {| VCL.guard := VCL.CDrawHealthy 1 (backend_id B);
           VCL.body := [VCL.SetBackend (backend_id B)] |};
        {| VCL.guard := VCL.CDrawHealthy 2 (backend_id C);
           VCL.body := [VCL.SetBackend (backend_id C)] |} ]
  ∧ VCL.otherwise (selection A [B; C])
    = [VCL.SetBackend (backend_id A);
       VCL.Verbatim (to_str (FastlyGateway.customVCL A))].
Proof.
  intros Hds. split; [|split; [by apply selectBackendVCL_print | done]].
  unfold FastlyGateway.selectBackendVCL. rewrite Hds. reflexivity.
Qed.

Lemma selectBackendVCL_three_witness :
  FastlyGateway.selectBackendVCL SampleThree.gateway
  = Ok (VCL.print (selection SampleThree.a [SampleThree.b; SampleThree.c])).
Proof.
  exact (proj1 (proj2 (selectBackendVCL_three SampleThree.gateway
                         SampleThree.a SampleThree.b SampleThree.c
                         eq_refl))).
Defined.

(** ** FastlyGateway: the URL-rewrite snippet *)






Section URLRewrite.
Import FastlyGateway.





End URLRewrite.




(** ** FastlyGateway: deploy *)

Section Runs.
Context {St Ev : Type}.

Lemma bind_Ok_inv {A B} (m : M (St:=St) (Ev:=Ev) A) (k : A → M B)
    (s s' : St) (t : list Ev) (b : B) :
  bind m k s = (s', t, Ok b) →
  ∃ a s1 t1 t2,
    m s = (s1, t1, Ok a) ∧ k a s1 = (s', t2, Ok b) ∧ t = t1 ++ t2.
Proof.
  unfold bind. destruct (m s) as [[s1 t1] [a|e]]; [|discriminate].
  destruct (k a s1) as [[s2 t2] r] eqn:Hk. intros [= -> <- ->].
  by exists a, s1, t1, t2.
Qed.

Lemma bind_run {A B} (m : M (St:=St) (Ev:=Ev) A) (k : A → M B)
    (s s1 : St) (t1 : list Ev) (a : A) :
  m s = (s1, t1, Ok a) →
  bind m k s = ((k a s1).1.1, t1 ++ (k a s1).1.2, (k a s1).2).
Proof.
  intros Hm. unfold bind. rewrite Hm. by destruct (k a s1) as [[s2 t2] r].
Qed.
End Runs.

Section Deploy.
Import FastlyGateway Written.
Variable c : FastlyClient.
Variable v : Z.

Lemma promise_all_Ok (l : list (result unit)) :
  promise_all l = Ok tt ↔ Forall (λ r, r = Ok tt) l.
Proof.
  induction l as [|[[]|e] l IH]; simpl.
  - split; [constructor | done].
  - rewrite IH. split; [by constructor | by inversion 1].
  - split; [done | by inversion 1].
Qed.

Lemma accepted_Ok (k : call) : accepted c k = true ↔ answers c k = Ok tt.
Proof.
  unfold accepted. destruct (answers c k) as [[]|e]; split; done.
Qed.

Lemma for_each_send {A} (f : A → call) (l : list A) (s : state) :
  for_each (λ x, send c (f x)) l s
  = (s, Call ∘ f <$> l, Ok (answers c ∘ f <$> l)).
Proof.
  induction l as [|x l IH]; [done|].
  cbn [for_each]. unfold bind at 1. simpl.
  unfold bind at 1. rewrite IH. unfold bind, ret. simpl.
  by rewrite app_nil_r.
Qed.

Lemma for_each_settle (bs : list Backend) (s : state) :
  for_each
    (λ br, match br.2 with
           | Ok _ => ret (Ok tt)
           | Throw _ => send c (UpdateBackend v (b_name br.1) br.1)
           end)
    (zip bs (answers c ∘ CreateBackend v <$> bs)) s
  = (s,
     Call <$> omap (λ b, if accepted c (CreateBackend v b) then None
                         else Some (UpdateBackend v (b_name b) b)) bs,
     Ok ((λ b, if accepted c (CreateBackend v b) then Ok tt
               else answers c (UpdateBackend v (b_name b) b)) <$> bs)).
Proof.
  induction bs as [|b bs IH]; [done|].
  cbn [fmap list_fmap zip zip_with for_each]. unfold bind at 1.
  unfold accepted at 1 3. cbn [fst snd compose omap list_omap].
  unfold accepted at 1.
  destruct (answers c (CreateBackend v b)) as [[]|e]; simpl.
  - unfold bind at 1. rewrite IH. unfold bind, ret. simpl.
    by rewrite app_nil_r.
  - unfold bind at 1. rewrite IH. unfold bind, ret. simpl.
    by rewrite app_nil_r.
Qed.

Lemma write_condition_run (s : state) :
  write_condition c v s
  = (s, [Call (WriteCondition v "false" false_condition)],
     answers c (WriteCondition v "false" false_condition)).
Proof.
  unfold write_condition, bind, send, emit, ret, await. simpl.
  by destruct (answers c _).
Qed.

Lemma write_healthchecks_run (g s : state) :
  write_healthchecks c v g s
  = (s, Call <$> healthcheck_calls v g,
     promise_all (answers c <$> healthcheck_calls v g)).
Proof.
  unfold write_healthchecks, healthcheck_calls.
  erewrite bind_run by apply for_each_send.
  unfold await. simpl. by rewrite app_nil_r, !list_fmap_compose.
Qed.

Lemma write_backends_run (g s : state) :
  write_backends c v g s
  = (s, Call <$> (create_calls v g ++ update_calls c v g),
     promise_all
       ((λ b, if accepted c (CreateBackend v b) then Ok tt
              else answers c (UpdateBackend v (b_name b) b))
        <$> (backend_of <$> _deployers g))).
Proof.
  unfold write_backends, create_calls, update_calls.
  erewrite bind_run by apply for_each_send. cbv beta.
  erewrite bind_run by apply for_each_settle.
  unfold await. simpl.
  by rewrite app_nil_r, fmap_app, !list_fmap_compose.
Qed.

Lemma write_snippets_resolved (g s : state) :
  outcome (write_snippets c v g s) = Ok tt →
  ∃ vcl, selectBackendVCL g = Ok vcl
         ∧ write_snippets c v g s
           = (s, Call <$> snippet_calls v g vcl, Ok tt)
         ∧ Forall (λ k, answers c k = Ok tt) (snippet_calls v g vcl).
Proof.
  unfold write_snippets, snippet_calls, bind, send, emit, ret, await,
    outcome.
  destruct (selectBackendVCL g) as [vcl|e]; simpl; [|discriminate].
  destruct (answers c (WriteSnippet v "backend" _)) as [[]|e] eqn:H1;
    simpl; [|discriminate].
  destruct (answers c (WriteSnippet v "missurl" _)) as [[]|e] eqn:H2;
    simpl; [|discriminate].
  destruct (answers c (WriteSnippet v "passurl" _)) as [[]|e] eqn:H3;
    simpl; [|discriminate].
  destruct (answers c (WriteSnippet v "logurl" _)) as [[]|e] eqn:H4;
    simpl; [|discriminate].
  intros _. exists vcl. repeat split; try done.
  repeat constructor; done.
Qed.
End Deploy.

Section DeployResolved.
Import FastlyGateway Written.

(** What a run of [deploy] that resolves has done: the log line, the
    condition, every health check, every backend creation, an update
    for each creation that was rejected, and the four snippets; the
    service accepted all of these but the rejected creations. *)
Lemma deploy_resolved (g : state) (c : FastlyClient) :
  _fastly g = Some c →
  outcome (deploy g) = Ok tt →
  ∃ v vcl,
    transact_version c = Ok v
    ∧ selectBackendVCL g = Ok vcl
    ∧ final_state (deploy g) = g
    ∧ trace (deploy g)
      = LogInfo "Set up Fastly Gateway"
        :: (Call <$> (WriteCondition v "false" false_condition
                      :: healthcheck_calls v g
                      ++ create_calls v g ++ update_calls c v g
                      ++ snippet_calls v g vcl))
    ∧ answers c (WriteCondition v "false" false_condition) = Ok tt
    ∧ Forall (λ k, answers c k = Ok tt) (healthcheck_calls v g)
    ∧ Forall (λ k, answers c k = Ok tt) (update_calls c v g)
    ∧ Forall (λ k, answers c k = Ok tt) (snippet_calls v g vcl).
Proof.
  intros Hc Hok.
  destruct (deploy g) as [[s' t] r] eqn:Hrun. simpl in Hok. subst r.
  unfold deploy in Hrun.
  apply bind_Ok_inv in Hrun as ([] & s1 & t1 & t2 & Hlog & Hrun & ->).
  injection Hlog as <- <-.
  apply bind_Ok_inv in Hrun as (g' & s2 & t3 & t4 & Hget & Hrun & ->).
  injection Hget as <- <- <-. rewrite Hc in Hrun.
  apply bind_Ok_inv in Hrun as (v & s3 & t5 & t6 & Hv & Hrun & ->).
  unfold await in Hv. injection Hv as <- <- Hv.
  apply bind_Ok_inv in Hrun as ([] & s4 & t7 & t8 & Hops & Hact & ->).
  unfold await in Hact. injection Hact as <- <- Hact.
  unfold operations in Hops.
  apply bind_Ok_inv in Hops as (g' & s5 & t9 & t10 & Hget & Hops & ->).
  injection Hget as <- <- <-.
  apply bind_Ok_inv in Hops as ([] & s6 & t11 & t12 & Hcond & Hops & ->).
  rewrite write_condition_run in Hcond. injection Hcond as <- <- Hcond.
  apply bind_Ok_inv in Hops as ([] & s7 & t13 & t14 & Hhc & Hops & ->).
  rewrite write_healthchecks_run in Hhc. injection Hhc as <- <- Hhc.
  apply bind_Ok_inv in Hops as ([] & s8 & t15 & t16 & Hbe & Hsn & ->).
  rewrite write_backends_run in Hbe. injection Hbe as <- <- Hbe.
  destruct (write_snippets_resolved c v g g) as (vcl & Hvcl & Hsnip & Hacc).
  { by rewrite Hsn. }
  rewrite Hsnip in Hsn. injection Hsn as <- <-.
  exists v, vcl. split; [done|]. split; [done|]. split; [done|].
  split.
  { unfold trace. simpl. rewrite !app_nil_r.
    by rewrite !fmap_app, <- !app_assoc. }
  split; [done|]. split.
  { apply promise_all_Ok in Hhc. by apply Forall_fmap in Hhc. }
  split; [|done].
  apply promise_all_Ok, Forall_fmap in Hbe.
  unfold update_calls. induction Hbe as [|b bs Hb Hbs IH]; [constructor|].
  simpl in *. destruct (accepted c (CreateBackend v b)); simpl; [done|].
  by constructor.
Qed.
End DeployResolved.

Section WrittenFacts.
Import FastlyGateway Written.
Variable c : FastlyClient.

Lemma calls_Call (ks : list call) : calls (Call <$> ks) = ks.
Proof.
  induction ks as [|k ks IH]; [done|].
  change (calls (Call <$> k :: ks)) with (k :: calls (Call <$> ks)).
  by rewrite IH.
Qed.

Lemma written_deploy_trace (msg : string) (ks : list call) :
  written c (LogInfo msg :: (Call <$> ks)) = List.filter (accepted c) ks.
Proof.
  unfold written.
  change (calls (LogInfo msg :: (Call <$> ks))) with (calls (Call <$> ks)).
  by rewrite calls_Call.
Qed.

Lemma filter_accepted_all (ks : list call) :
  Forall (λ k, answers c k = Ok tt) ks → List.filter (accepted c) ks = ks.
Proof.
  induction 1 as [|k ks Hk Hks IH]; [done|]. simpl.
  apply accepted_Ok in Hk. by rewrite Hk, IH.
Qed.

Lemma snippets_app (ks ks' : list call) :
  snippets (ks ++ ks') = snippets ks ++ snippets ks'.
Proof. apply omap_app. Qed.

(** The first three stages write no snippet. *)
Lemma snippets_filter_none (f : call → bool) (ks : list call) :
  snippets ks = [] → snippets (List.filter f ks) = [].
Proof.
  induction ks as [|k ks IH]; [done|]. simpl.
  destruct k; simpl; try discriminate; intros Hks;
    destruct (f _); simpl; auto.
Qed.

Lemma snippets_healthcheck_calls (v : Z) (g : state) :
  snippets (healthcheck_calls v g) = [].
Proof.
  unfold healthcheck_calls.
  induction (healthcheck_of g <$> _deployers g); [done | by simpl].
Qed.

Lemma snippets_create_calls (v : Z) (g : state) :
  snippets (create_calls v g) = [].
Proof.
  unfold create_calls.
  induction (backend_of <$> _deployers g); [done | by simpl].
Qed.

Lemma snippets_update_calls (v : Z) (g : state) :
  snippets (update_calls c v g) = [].
Proof.
  unfold update_calls.
  induction (backend_of <$> _deployers g) as [|b bs IH]; [done|]. simpl.
  by destruct (accepted c (CreateBackend v b)).
Qed.

(** The snippets a resolved [deploy] has written. *)
Lemma deploy_snippets (g : state) :
  _fastly g = Some c →
  outcome (deploy g) = Ok tt →
  ∃ vcl, selectBackendVCL g = Ok vcl
         ∧ snippets (written c (trace (deploy g)))
           = [backend_snippet vcl; missurl_snippet g; passurl_snippet g;
              logurl_snippet].
Proof.
  intros Hc Hok.
  destruct (deploy_resolved g c Hc Hok)
    as (v & vcl & _ & Hvcl & _ & Htrace & Hcond & _ & _ & Hsnip).
  exists vcl. split; [done|].
  rewrite Htrace, written_deploy_trace.
  cbn [List.filter]. apply accepted_Ok in Hcond. rewrite Hcond.
  change (snippets (WriteCondition v "false" false_condition :: ?ks))
    with (snippets ks).
  rewrite !List.filter_app, !snippets_app.
  rewrite (snippets_filter_none _ _ (snippets_healthcheck_calls v g)).
  rewrite (snippets_filter_none _ _ (snippets_create_calls v g)).
  rewrite (snippets_filter_none _ _ (snippets_update_calls v g)).
  by rewrite (filter_accepted_all _ Hsnip).
Qed.
End WrittenFacts.

Section DeployAccepted.
Import FastlyGateway Written.

Lemma promise_all_fmap_Ok {A} (f : A → result unit) (l : list A) :
  (∀ x, f x = Ok tt) → promise_all (f <$> l) = Ok tt.
Proof.
  intros Hf. induction l as [|x l IH]; [done|]. simpl. by rewrite Hf.
Qed.

(** When the service accepts every request and there is a deployer,
    [deploy] resolves. *)
Lemma deploy_accepting_resolves (g : state) (v : Z) :
  _fastly g = Some (accepting v) →
  _deployers g ≠ [] →
  outcome (deploy g) = Ok tt.
Proof.
  intros Hc Hne.
  assert (Hvcl : ∃ vcl, selectBackendVCL g = Ok vcl).
  { unfold selectBackendVCL. destruct (_deployers g); [done|]. eauto. }
  destruct Hvcl as [vcl Hvcl].
  assert (Hops : operations (accepting v) v g
                 = (g, Call <$> (WriteCondition v "false" false_condition
                                 :: healthcheck_calls v g
                                 ++ create_calls v g
                                 ++ update_calls (accepting v) v g
                                 ++ snippet_calls v g vcl),
                    Ok tt)).
  { unfold operations.
    erewrite bind_run by reflexivity. cbv beta.
    erewrite bind_run by exact (write_condition_run (accepting v) v g).
    cbv beta.
    erewrite bind_run; cycle 1.
    { rewrite write_healthchecks_run, promise_all_fmap_Ok by done.
      reflexivity. }
    cbv beta.
    erewrite bind_run; cycle 1.
    { rewrite write_backends_run, promise_all_fmap_Ok by done.
      reflexivity. }
    cbv beta.
    unfold write_snippets, snippet_calls. rewrite Hvcl.
    unfold bind, await, send, emit, ret. simpl.
    by rewrite !fmap_app, <- !app_assoc. }
  unfold deploy.
  erewrite bind_run by reflexivity. cbv beta.
  erewrite bind_run by reflexivity. cbv beta. rewrite Hc.
  erewrite bind_run by reflexivity. cbv beta.
  erewrite bind_run by apply Hops. reflexivity.
Qed.
End DeployAccepted.

(** C4 (as amended): for a non-empty deployer list, a [deploy()] that
    resolves has written exactly four snippets, named [backend],
    [missurl], [passurl] and [logurl] in this order, each with priority
    10 and not dynamic; [missurl] is of type [miss] and holds the
    URL-rewrite text. *)
Theorem deploy_writes_four_snippets (g : FastlyGateway.state)
    (c : FastlyGateway.FastlyClient) :
  FastlyGateway._fastly g = Some c →
  FastlyGateway._deployers g ≠ [] →
  outcome (FastlyGateway.deploy g) = Ok tt →
  let ss := Written.snippets
              (Written.written c (trace (FastlyGateway.deploy g))) in
  FastlyGateway.s_name <$> ss = ["backend"; "missurl"; "passurl"; "logurl"]
  ∧ Forall (λ s, FastlyGateway.priority s = 10
                 ∧ FastlyGateway.dynamic s = 0) ss
  ∧ (∀ s, s ∈ ss → FastlyGateway.s_name s = "missurl" →
          FastlyGateway.s_type s = "miss"
          ∧ FastlyGateway.content s = FastlyGateway.setURLVCL g).
Proof.
  intros Hc _ Hok ss. subst ss.
  destruct (deploy_snippets c g Hc Hok) as (vcl & _ & ->).
  split; [reflexivity|]. split; [by repeat constructor|].
  intros s Hs Hname.
  repeat (apply elem_of_cons in Hs as [->|Hs]; [by try discriminate Hname|]).
  by apply elem_of_nil in Hs.
Qed.

Lemma deploy_writes_four_snippets_witness :
  outcome (FastlyGateway.deploy SampleRuns.single) = Ok tt
  ∧ FastlyGateway.s_name
    <$> Written.snippets
          (Written.written (Written.accepting 2)
             (trace (FastlyGateway.deploy SampleRuns.single)))
    = ["backend"; "missurl"; "passurl"; "logurl"].
Proof.
  split; [reflexivity|].
  apply (deploy_writes_four_snippets SampleRuns.single (Written.accepting 2)).
  - reflexivity.
  - discriminate.
  - reflexivity.
Defined.

(** C4 as stated fails twice.  With no deployer, [selectBackendVCL]
    throws before the first snippet is sent, and no snippet is written.
    With a deployer, the snippet [passurl] is written with the type
    [miss], not [pass]. *)
Lemma deploy_snippets_not_as_stated :
  (outcome (FastlyGateway.deploy SampleRuns.none)
   = Throw (TypeError "Cannot read properties of undefined")
   ∧ Written.snippets
       (Written.written (Written.accepting 2)
          (trace (FastlyGateway.deploy SampleRuns.none))) = [])
  ∧ (λ s, (FastlyGateway.s_name s, FastlyGateway.s_type s))
    <$> Written.snippets
          (Written.written (Written.accepting 2)
             (trace (FastlyGateway.deploy SampleRuns.single)))
    = [("backend", "recv"); ("missurl", "miss"); ("passurl", "miss");
       ("logurl", "fetch")].
Proof. repeat split; vm_compute; reflexivity. Qed.

(** C3 (as amended): with the single deployer
    [{name:"g", host:"g.example.com", basePath:"/", urlVCL:'"/x"'}] and
    the checkpath [/health], a [deploy()] that resolves has written
    exactly one health check, named [gCheck], whose path is
    [basePath + checkpath], that is [//health]; exactly one backend,
    named [g]; and a [backend] snippet whose last [else] selects [F_g]. *)
Theorem deploy_single_deployer (g : FastlyGateway.state)
    (c : FastlyGateway.FastlyClient) :
  FastlyGateway._deployers g = [SampleGateway.g] →
  FastlyGateway._checkpath g = JSstr "/health" →
  FastlyGateway._fastly g = Some c →
  outcome (FastlyGateway.deploy g) = Ok tt →
  let ks := Written.written c (trace (FastlyGateway.deploy g)) in
  (∃ h, Written.healthchecks ks = [h]
        ∧ FastlyGateway.hc_name h = "gCheck"
        ∧ FastlyGateway.path h = "//health"
        ∧ FastlyGateway.hc_host h = "g.example.com")
  ∧ (∃ b, Written.backends ks = [b]
          ∧ FastlyGateway.b_name b = "g"
          ∧ FastlyGateway.healthcheck b = "gCheck")
  ∧ (∃ s rest, Written.snippets ks = s :: rest
               ∧ FastlyGateway.s_name s = "backend"
               ∧ FastlyGateway.content s
                 = FastlyGateway.select_header 1
                   +:+ " else " +:+ FastlyGateway.select_branch 0 SampleGateway.g
                   +:+ " else "
                   +:+ ("{" +:+ nl
                        +:+ "      set req.backend = F_g;" +:+ nl
                        +:+ "      undefined" +:+ nl
                        +:+ "    }")).
Proof.
  intros Hds Hpath Hc Hok ks.
  destruct (deploy_snippets c g Hc Hok) as (vcl & Hvcl & Hsnippets).
  destruct (deploy_resolved g c Hc Hok)
    as (v & vcl' & _ & _ & _ & Htrace & Hcond & Hhc & Hupd & Hsnip).
  assert (Hks : ks = [FastlyGateway.WriteCondition v "false"
                        FastlyGateway.false_condition;
                      FastlyGateway.WriteHealthcheck v "gCheck"
                        (FastlyGateway.healthcheck_of g SampleGateway.g)]
                     ++ List.filter (Written.accepted c)
                          (Written.create_calls v g
                           ++ Written.update_calls c v g)
                     ++ Written.snippet_calls v g vcl').
  { subst ks. rewrite Htrace, written_deploy_trace.
    change (?k :: ?l ++ ?l') with ([k] ++ l ++ l').
    rewrite !List.filter_app.
    rewrite (filter_accepted_all c _ Hsnip), (filter_accepted_all c _ Hhc).
    rewrite (filter_accepted_all c [_]) by (by constructor).
    unfold Written.healthcheck_calls. rewrite Hds.
    by rewrite <- !app_assoc. }
  assert (Hbs : List.filter (Written.accepted c)
                  (Written.create_calls v g ++ Written.update_calls c v g)
                = [FastlyGateway.CreateBackend v
                     (FastlyGateway.backend_of SampleGateway.g)]
                ∨ List.filter (Written.accepted c)
                    (Written.create_calls v g ++ Written.update_calls c v g)
                  = [FastlyGateway.UpdateBackend v "g"
                       (FastlyGateway.backend_of SampleGateway.g)]).
  { revert Hupd. unfold Written.create_calls, Written.update_calls.
    rewrite Hds. cbn [fmap list_fmap omap list_omap app List.filter].
    destruct (Written.accepted c (FastlyGateway.CreateBackend v _)) eqn:Hcr.
    - intros _. left. reflexivity.
    - intros [Hu _]%Forall_cons. apply accepted_Ok in Hu.
      right. cbn [List.filter app]. by rewrite Hu. }
  split; [|split].
  - exists (FastlyGateway.healthcheck_of g SampleGateway.g).
    split; [|by unfold FastlyGateway.healthcheck_of; rewrite Hpath].
    rewrite Hks. destruct Hbs as [-> | ->]; reflexivity.
  - exists (FastlyGateway.backend_of SampleGateway.g).
    split; [|done].
    rewrite Hks. destruct Hbs as [-> | ->]; reflexivity.
  - subst ks. rewrite Hsnippets. eexists _, _. split; [reflexivity|].
    split; [reflexivity|].
    revert Hvcl. unfold FastlyGateway.selectBackendVCL. rewrite Hds.
    by intros [= <-].
Qed.

Lemma deploy_single_deployer_witness :
  ∃ h, Written.healthchecks
         (Written.written (Written.accepting 2)
            (trace (FastlyGateway.deploy SampleRuns.single))) = [h]
       ∧ FastlyGateway.hc_name h = "gCheck"
       ∧ FastlyGateway.path h = "//health"
       ∧ FastlyGateway.hc_host h = "g.example.com".
Proof.
  exact (proj1 (deploy_single_deployer SampleRuns.single
                  (Written.accepting 2) eq_refl eq_refl eq_refl eq_refl)).
Defined.

(** C3 as stated fails: the path of the health check is
    ["/" + "/health"], with two slashes, not [/health]. *)
Lemma deploy_single_deployer_path_not_as_stated :
  FastlyGateway.path
  <$> Written.healthchecks
        (Written.written (Written.accepting 2)
           (trace (FastlyGateway.deploy SampleRuns.single)))
  = ["//health"]
  ∧ ¬ ∃ h, Written.healthchecks
             (Written.written (Written.accepting 2)
                (trace (FastlyGateway.deploy SampleRuns.single))) = [h]
           ∧ FastlyGateway.path h = "/health".
Proof.
  split; [vm_compute; reflexivity|].
  intros (h & Hh & Hpath). vm_compute in Hh. injection Hh as <-.
  discriminate Hpath.
Qed.

(** * Further properties *)

(** ** GoogleDeployer: init and validate *)

Ltac unfold_effects :=
  unfold try_catch, bind, get, emit, await, ret, throw, modify, outcome,
    trace, final_state.

(** X11: on a deployer without client, [validate()] passes after
    [init()] exactly when [init()] resolved; when [init()] throws, the
    fields are unchanged and the last thing it did was to log
    [Unable to authenticate with Google: {message}] for the error it
    throws. *)
Theorem init_then_validate (w : GoogleDeploy.World)
    (s : GoogleDeployer.state) :
  GoogleDeployer._client s = None →
  (GoogleDeploy.validate (final_state (GoogleDeploy.init w s)) = Ok tt
   ↔ outcome (GoogleDeploy.init w s) = Ok tt)
  ∧ (∀ e, outcome (GoogleDeploy.init w s) = Throw e →
          final_state (GoogleDeploy.init w s) = s
          ∧ last (trace (GoogleDeploy.init w s))
            = Some (GoogleDeploy.Deployer (GoogleDeployer.LogError
                [GoogleDeployer.LStr
                   ("Unable to authenticate with Google: "
                    +:+ err_message e)]))).
Proof.
  intros Hnone.
  unfold GoogleDeploy.init, GoogleDeploy.validate, GoogleDeployer.ready.
  unfold_effects.
  destruct (GoogleDeploy.path_resolve w _) as [key|e1]; simpl.
  - destruct (GoogleDeploy.new_client w _) as [c|e2]; simpl.
    + split; [done|]. intros e [=].
    + rewrite Hnone. split; [split; discriminate|].
      by intros e [= <-].
  - rewrite Hnone. split; [split; discriminate|].
    by intros e [= <-].
Qed.

Lemma init_then_validate_witness :
  GoogleDeploy.validate
    (final_state (GoogleDeploy.init (SampleWorld.working 200)
                    SampleWorld.fresh_deployer)) = Ok tt
  ∧ final_state (GoogleDeploy.init SampleWorld.locked
                   SampleWorld.fresh_deployer)
    = SampleWorld.fresh_deployer.
Proof.
  split.
  - apply (init_then_validate (SampleWorld.working 200)
             SampleWorld.fresh_deployer); reflexivity.
  - apply (proj2 (init_then_validate SampleWorld.locked
                    SampleWorld.fresh_deployer eq_refl)
             SampleWorld.credentials_missing).
    reflexivity.
Defined.

(** ** GoogleDeployer: uploadZIP *)

(** X12: [uploadZIP()] does not look at the answer to the upload: once
    [fetch] resolves, whatever the HTTP status, the upload URL is stored
    and [uploadZIP()] resolves. *)
Theorem uploadZIP_ignores_status (w : GoogleDeploy.World)
    (s : GoogleDeployer.state) (c : GoogleDeployer.CloudFunctionsServiceClient)
    (u : jsval) (response : GoogleDeploy.Response) :
  GoogleDeployer._client s = Some c →
  GoogleDeploy.generateUploadUrl w (GoogleDeployer.location s) = Ok u →
  GoogleDeploy.fetch w (GoogleDeploy.upload_request s u) = Ok response →
  GoogleDeploy.uploadZIP w s
  = (GoogleDeploy.set_uploadURL u s,
     [GoogleDeploy.GenerateUploadUrl (GoogleDeployer.location s);
      GoogleDeploy.Fetch (GoogleDeploy.upload_request s u)],
     Ok tt).
Proof.
  intros Hc Hurl Hput. unfold GoogleDeploy.uploadZIP. unfold_effects.
  rewrite Hc. simpl. rewrite Hurl. simpl. rewrite Hput. reflexivity.
Qed.

Lemma uploadZIP_ignores_status_witness :
  outcome (GoogleDeploy.uploadZIP (SampleWorld.working 403)
             (Sample.deployer "helix-services" "dispatch@4.7.1"
                (Some SampleService.fresh)))
  = Ok tt.
Proof.
  rewrite (uploadZIP_ignores_status (SampleWorld.working 403)
             (Sample.deployer "helix-services" "dispatch@4.7.1"
                (Some SampleService.fresh))
             SampleService.fresh
             (JSstr "https://storage.googleapis.com/signed")
             {| GoogleDeploy.status := 403 |} eq_refl eq_refl eq_refl).
  reflexivity.
Defined.

(** A run of [uploadZIP()] that throws changes no field. *)
Lemma uploadZIP_throw_state (w : GoogleDeploy.World)
    (s : GoogleDeployer.state) (e : js_error) :
  outcome (GoogleDeploy.uploadZIP w s) = Throw e →
  final_state (GoogleDeploy.uploadZIP w s) = s.
Proof.
  unfold GoogleDeploy.uploadZIP. unfold_effects.
  destruct (GoogleDeployer._client s) as [c|]; simpl; [|done].
  destruct (GoogleDeploy.generateUploadUrl w _) as [u|e1]; simpl; [|done].
  by destruct (GoogleDeploy.fetch w _) as [r|e2].
Qed.


(** X13: [uploadZIP()] stores the upload URL only when it resolves: a
    run that throws leaves every field as it was; a run that resolves has
    asked for one upload URL, sent one PUT of the zip file to it, and
    stored that URL. *)
Theorem uploadZIP_stores_url_on_success (w : GoogleDeploy.World)
    (s : GoogleDeployer.state) :
  (∀ e, outcome (GoogleDeploy.uploadZIP w s) = Throw e →
        final_state (GoogleDeploy.uploadZIP w s) = s)
  ∧ (outcome (GoogleDeploy.uploadZIP w s) = Ok tt →
     ∃ u, GoogleDeploy.generateUploadUrl w (GoogleDeployer.location s) = Ok u
          ∧ final_state (GoogleDeploy.uploadZIP w s)
            = GoogleDeploy.set_uploadURL u s
          ∧ trace (GoogleDeploy.uploadZIP w s)
            = [GoogleDeploy.GenerateUploadUrl (GoogleDeployer.location s);
               GoogleDeploy.Fetch
                 {| GoogleDeploy.p_url := u;
                    GoogleDeploy.p_method := "PUT";
                    GoogleDeploy.headers :=
                      [("Content-Type", "application/zip");
                       ("x-goog-content-length-range", "0,104857600")];
                    GoogleDeploy.body :=
                      GoogleDeployer.zipFile (GoogleDeployer.cfg s) |}]).
Proof.
  unfold GoogleDeploy.uploadZIP. unfold_effects.
  destruct (GoogleDeployer._client s) as [c|]; simpl; [|by split].
  destruct (GoogleDeploy.generateUploadUrl w _) as [u|e1]; simpl;
    [|by split].
  destruct (GoogleDeploy.fetch w _) as [r|e2]; simpl; [|by split].
  split; [done|]. intros _. by exists u.
Qed.

Lemma uploadZIP_stores_url_on_success_witness :
  final_state (GoogleDeploy.uploadZIP SampleWorld.offline
                 (Sample.deployer "helix-services" "dispatch@4.7.1"
                    (Some SampleService.fresh)))
  = Sample.deployer "helix-services" "dispatch@4.7.1"
      (Some SampleService.fresh).
Proof.
  apply (proj1 (uploadZIP_stores_url_on_success SampleWorld.offline
                  (Sample.deployer "helix-services" "dispatch@4.7.1"
                     (Some SampleService.fresh)))
           SampleWorld.unavailable).
  reflexivity.
Defined.

(** ** GoogleDeployer: createFunction, further *)

Section CreateFunctionFurther.
Import GoogleDeployer.



(** X19: one run of [createFunction()] never sends both a create and
    an update request, and never more than one of either. *)
Theorem createFunction_create_xor_update (s : state) :
  (length (omap (λ e, match e with
                      | Rpc (CreateFunction _ _) | Rpc (UpdateFunction _) =>
                          Some e
                      | _ => None
                      end) (trace (createFunction s))) ≤ 1)%nat.
Proof.
  unfold_run.
  destruct s as [b gc [c|] up fn furl]; simpl.
  - destruct (getFunction c _) as [[]|e0]; split_answers; lia.
  - split_answers; lia.
Qed.

(** X18: when the operation resolves to a function without HTTPS
    trigger, [createFunction()] throws a [TypeError] after the function
    was created and made public; the error is raised outside the
    [try] block, so nothing is logged for it, and [_functionURL] stays as
    it was. *)
Theorem createFunction_without_trigger (s : state)
    (c : CloudFunctionsServiceClient) (e : js_error) :
  _client s = Some c →
  getFunction c (resource_name s) = Throw e →
  createFunction_rpc c (location s) (function_of s (resource_name s))
  = Ok (Ok {| httpsTrigger := None |}) →
  setIamPolicy c (resource_name s) invoker_policy = Ok tt →
  ∃ msg,
    createFunction s
    = (set_function {| httpsTrigger := None |} s,
       [Rpc (GetFunction (resource_name s));
        Rpc (CreateFunction (location s) (function_of s (resource_name s)));
        LogInfo
          "creating function, please wait (Google deployments are slow).";
        Rpc OperationPromise;
        LogInfo "function deployed";
        LogInfo "enabling unauthenticated requests";
        Rpc (SetIamPolicy (resource_name s) invoker_policy)],
       Throw (TypeError msg)).
Proof.
  unfold_run. destruct s as [b gc c' up fn furl]; simpl.
  intros -> Hget Hcreate Hiam. rewrite Hget. simpl.
  rewrite Hcreate. simpl. rewrite Hiam. by eexists.
Qed.
End CreateFunctionFurther.


Lemma createFunction_without_trigger_witness :
  ∃ msg,
    outcome (GoogleDeployer.createFunction
               (Sample.deployer "helix-services" "dispatch@4.7.1"
                  (Some SampleWorld.untriggered)))
    = Throw (TypeError msg).
Proof.
  destruct (createFunction_without_trigger
              (Sample.deployer "helix-services" "dispatch@4.7.1"
                 (Some SampleWorld.untriggered))
              SampleWorld.untriggered SampleService.not_found
              eq_refl eq_refl eq_refl eq_refl) as [msg Hrun].
  exists msg. rewrite Hrun. reflexivity.
Defined.

(** ** GoogleDeployer: deploy *)

Section TryCatch.
Context {St Ev : Type}.

Lemma bind_throw {A B} (m : M (St:=St) (Ev:=Ev) A) (k : A → M B)
    (s s1 : St) (t1 : list Ev) (e : js_error) :
  m s = (s1, t1, Throw e) → bind m k s = (s1, t1, Throw e).
Proof. intros Hm. unfold bind. by rewrite Hm. Qed.

Lemma try_catch_ok {A} (m : M (St:=St) (Ev:=Ev) A) (h : js_error → M A)
    (s s1 : St) (t1 : list Ev) (a : A) :
  m s = (s1, t1, Ok a) → try_catch m h s = (s1, t1, Ok a).
Proof. intros Hm. unfold try_catch. by rewrite Hm. Qed.

Lemma try_catch_throw {A} (m : M (St:=St) (Ev:=Ev) A) (h : js_error → M A)
    (s s1 : St) (t1 : list Ev) (e : js_error) :
  m s = (s1, t1, Throw e) →
  try_catch m h s = ((h e s1).1.1, t1 ++ (h e s1).1.2, (h e s1).2).
Proof.
  intros Hm. unfold try_catch. rewrite Hm. by destruct (h e s1) as [[s2 t2] r].
Qed.
End TryCatch.

Section GoogleDeployRuns.
Import GoogleDeployer GoogleDeploy.
Variable w : World.

Lemma lift_run {A} (m : M (St:=state) (Ev:=GoogleDeployer.event) A)
    (s : state) :
  lift m s = (final_state (m s), Deployer <$> trace (m s), outcome (m s)).
Proof. unfold lift. by destruct (m s) as [[s' t] r]. Qed.

(** A run of [createFunction()] that resolves has logged no error. *)
Lemma createFunction_resolved_no_error (s : state) (args : list log_arg) :
  outcome (createFunction s) = Ok tt →
  LogError args ∉ trace (createFunction s).
Proof.
  unfold_run.
  destruct s as [b gc [c|] up fn furl]; simpl.
  - destruct (getFunction c _) as [[]|e0]; split_answers; try discriminate;
      intros _; not_in_trace.
  - split_answers; discriminate.
Qed.

Lemma uploadZIP_events (s : state) (e : GoogleDeploy.event) :
  e ∈ trace (uploadZIP w s) →
  e = GenerateUploadUrl (location s) ∨ ∃ r, e = Fetch r.
Proof.
  unfold uploadZIP. unfold_effects.
  destruct (_client s) as [c|]; simpl; [|by intros ?%elem_of_nil].
  destruct (generateUploadUrl w _) as [u|e1]; simpl.
  - destruct (fetch w _) as [r|e2]; simpl;
      rewrite !elem_of_cons, elem_of_nil; intros [->|[->|[]]]; eauto.
  - rewrite !elem_of_cons, elem_of_nil. intros [->|[]]. by left.
Qed.

(** X15: [deploy()] logs an error exactly when it throws: a run that
    throws ends by logging
    [Unable to deploy Google Cloud function: {message}] with the error
    it throws; a run that resolves has logged no error at all. *)
Theorem deploy_logs_iff_throws (s : state) :
  (∀ e, outcome (deploy w s) = Throw e →
        last (trace (deploy w s)) = Some (deploy_log e))
  ∧ (outcome (deploy w s) = Ok tt →
     ∀ args, Deployer (LogError args) ∉ trace (deploy w s)).
Proof.
  unfold deploy.
  destruct ((uploadZIP w ;; lift createFunction) s) as [[s1 t1] [[]|e1]]
    eqn:Hrun.
  - rewrite (try_catch_ok _ _ _ _ _ _ Hrun). split; [discriminate|].
    intros _ args Hin. simpl in Hin.
    apply bind_Ok_inv in Hrun as ([] & s2 & t2 & t3 & Hup & Hcf & ->).
    apply elem_of_app in Hin as [Hin|Hin].
    + assert (Hup' : t2 = trace (uploadZIP w s)) by by rewrite Hup.
      rewrite Hup' in Hin.
      apply uploadZIP_events in Hin as [Hin | [r Hin]]; discriminate.
    + rewrite lift_run in Hcf. injection Hcf as _ <- Hok.
      apply list_elem_of_fmap in Hin as (ev & [= <-] & Hev).
      by apply (createFunction_resolved_no_error s2 args).
  - rewrite (try_catch_throw _ _ _ _ _ _ Hrun).
    unfold log_and_rethrow. unfold_effects. simpl.
    split; [|discriminate]. intros e [= <-]. by rewrite last_snoc.
Qed.

(** X14: when the upload throws, [createFunction()] is not reached: no
    call of the Cloud Functions API other than the upload-URL request is
    made, the fields are unchanged, and the error of the upload is
    logged and thrown again. *)
Theorem deploy_upload_throws (s : state) (e : js_error) :
  outcome (uploadZIP w s) = Throw e →
  deploy w s = (s, trace (uploadZIP w s) ++ [deploy_log e], Throw e)
  ∧ ∀ r, Deployer (Rpc r) ∉ trace (deploy w s).
Proof.
  intros Hthrow.
  assert (Hstate := uploadZIP_throw_state w s e Hthrow).
  destruct (uploadZIP w s) as [[s1 t1] r1] eqn:Hup.
  unfold final_state, outcome in Hthrow, Hstate. simpl in Hthrow, Hstate.
  subst r1 s1.
  assert (Hrun : deploy w s = (s, t1 ++ [deploy_log e], Throw e)).
  { unfold deploy.
    rewrite (try_catch_throw _ _ _ _ _ _ (bind_throw _ _ _ _ _ _ Hup)).
    reflexivity. }
  split; [exact Hrun|]. intros r Hin. rewrite Hrun in Hin. simpl in Hin.
  apply elem_of_app in Hin as [Hin|Hin].
  - assert (Ht : t1 = trace (uploadZIP w s)) by by rewrite Hup.
    rewrite Ht in Hin.
    apply uploadZIP_events in Hin as [Hin | [r' Hin]]; discriminate.
  - apply list_elem_of_singleton in Hin. discriminate.
Qed.
End GoogleDeployRuns.

Lemma deploy_logs_iff_throws_witness :
  last (trace (GoogleDeploy.deploy SampleWorld.offline
                 (Sample.deployer "helix-services" "dispatch@4.7.1"
                    (Some SampleService.fresh))))
  = Some (GoogleDeploy.deploy_log SampleWorld.unavailable).
Proof.
  apply (proj1 (deploy_logs_iff_throws SampleWorld.offline
                  (Sample.deployer "helix-services" "dispatch@4.7.1"
                     (Some SampleService.fresh)))
           SampleWorld.unavailable).
  reflexivity.
Defined.

Lemma deploy_upload_throws_witness :
  GoogleDeploy.deploy SampleWorld.offline
    (Sample.deployer "helix-services" "dispatch@4.7.1"
       (Some SampleService.fresh))
  = (Sample.deployer "helix-services" "dispatch@4.7.1"
       (Some SampleService.fresh),
     [GoogleDeploy.GenerateUploadUrl "projects/proj/locations/us-central1";
      GoogleDeploy.deploy_log SampleWorld.unavailable],
     Throw SampleWorld.unavailable).
Proof.
  apply (deploy_upload_throws SampleWorld.offline
           (Sample.deployer "helix-services" "dispatch@4.7.1"
              (Some SampleService.fresh))
           SampleWorld.unavailable).
  reflexivity.
Defined.

Section GoogleDeployResolved.
Import GoogleDeployer GoogleDeploy.
Variable w : World.


(** X20: on a deployer without client (no [init()], or a failed one)
    neither [createFunction()] nor [deploy()] sends a request: each
    throws a [TypeError] and leaves the fields as they were. *)
Theorem no_client_no_request (s : state) :
  _client s = None →
  ((∀ r, Rpc r ∉ trace (createFunction s))
   ∧ final_state (createFunction s) = s
   ∧ ∃ e, outcome (createFunction s) = Throw e ∧ err_name e = "TypeError")
  ∧ (Forall (λ e, is_request e = false) (trace (deploy w s))
     ∧ final_state (deploy w s) = s
     ∧ ∃ e, outcome (deploy w s) = Throw e ∧ err_name e = "TypeError").
Proof.
  destruct s as [b gc c up fn furl]. simpl. intros ->. split.
  - split; [intros r; unfold_run; not_in_trace|].
    split; [reflexivity|]. by eexists.
  - split; [by repeat constructor|]. split; [reflexivity|]. by eexists.
Qed.
End GoogleDeployResolved.


Lemma no_client_no_request_witness :
  final_state (GoogleDeploy.deploy (SampleWorld.working 200)
                 SampleWorld.fresh_deployer)
  = SampleWorld.fresh_deployer.
Proof.
  apply (no_client_no_request (SampleWorld.working 200)
           SampleWorld.fresh_deployer eq_refl).
Defined.

(** ** GoogleDeployer: test after createFunction *)



(** ** GoogleDeployer: names and labels *)

Lemma length_replace_all (c r : ascii) (s : string) :
  String.length (replace_all c r s) = String.length s.
Proof. induction s as [|a s IH]; simpl; [done | by rewrite IH]. Qed.

Lemma length_replace_first (c r : ascii) (s : string) :
  String.length (replace_first c r s) = String.length s.
Proof.
  induction s as [|a s IH]; simpl; [done|].
  destruct (Ascii.eqb a c); simpl; [done | by rewrite IH].
Qed.

Lemma length_string_app (s t : string) :
  String.length (s +:+ t) = (String.length s + String.length t)%nat.
Proof.
  induction s as [|a s IH]; [done|].
  rewrite string_app_cons. simpl. by rewrite IH.
Qed.

(** X21: the derived function name has the length of
    [{packageName}--{name}], and every character other than [.], [@]
    and [_] occurs in it exactly as often as there: the name is changed
    character for character, and only at [.] and [@]. *)
Theorem fullFunctionName_same_shape (s : GoogleDeployer.state) :
  String.length (GoogleDeployer.fullFunctionName s)
  = (String.length (GoogleDeployer.packageName (GoogleDeployer.cfg s)) + 2
     + String.length (GoogleDeployer.name (GoogleDeployer.cfg s)))%nat
  ∧ ∀ d : ascii,
      d ≠ "."%char → d ≠ "@"%char → d ≠ "_"%char →
      count_char d (GoogleDeployer.fullFunctionName s)
      = count_char d (GoogleDeployer.packageName (GoogleDeployer.cfg s)
                      +:+ "--"
                      +:+ GoogleDeployer.name (GoogleDeployer.cfg s)).
Proof.
  unfold GoogleDeployer.fullFunctionName. split.
  - rewrite length_replace_first, length_replace_all, !length_string_app.
    simpl. lia.
  - intros d Hdot Hat Hunder.
    rewrite count_replace_first_other, count_replace_all_other; done.
Qed.

Lemma fullFunctionName_same_shape_witness :
  count_char "-"
    (GoogleDeployer.fullFunctionName
       (Sample.deployer "@adobe/helix" "dispatch@4.7.1" None))
  = 2%nat.
Proof.
  rewrite (proj2 (fullFunctionName_same_shape
                    (Sample.deployer "@adobe/helix" "dispatch@4.7.1" None))
             "-"%char); [reflexivity | discriminate..].
Defined.

Lemma escape_not_dot (a : ascii) :
  Ascii.eqb (hex_digit (N_of_ascii a / 16)) "." = false
  ∧ Ascii.eqb (hex_digit (N_of_ascii a mod 16)) "." = false.
Proof. destruct a as [[] [] [] [] [] [] [] []]; split; reflexivity. Qed.

Lemma count_dot_encodeURIComponent (s : string) :
  count_char "." (encodeURIComponent s) = count_char "." s.
Proof.
  induction s as [|a s IH]; [done|]. simpl.
  destruct (is_unreserved a) eqn:Hres; simpl; [by rewrite IH|].
  destruct (escape_not_dot a) as [-> ->]. rewrite IH.
  destruct (Ascii.eqb_spec a "."); [by subst|done].
Qed.

(** X22: whatever the version, the value of the [pkgversion] label of
    the function resource contains no [.]. *)
Theorem pkgversion_label_no_dot (s : GoogleDeployer.state)
    (name v : string) :
  ("pkgversion", v) ∈ GoogleDeployer.labels (GoogleDeployer.function_of s name)
  → count_char "." v = 0%nat.
Proof.
  unfold GoogleDeployer.function_of. simpl.
  rewrite !elem_of_cons, elem_of_nil. intros [[= ->]|[[=]|[]]].
  rewrite count_dot_encodeURIComponent.
  by apply count_replace_all_same.
Qed.

Lemma pkgversion_label_no_dot_witness :
  count_char "." "1_0_0" = 0%nat.
Proof.
  apply (pkgversion_label_no_dot
           (Sample.deployer "helix-services" "dispatch@4.7.1" None)
           "projects/proj/locations/us-central1/functions/f" "1_0_0").
  vm_compute. left.
Defined.

(** ** FastlyGateway: routing with unhealthy backends *)

Section RoutingPartial.
Import FastlyGateway.
Variable healthy : string → bool.

Lemma run_chain_first_healthy (ds : list deployer) :
  ∀ (k : nat) (r : Z) (last : list VCL.stmt) (i : nat) (d : deployer),
    ds !! i = Some d →
    r ≤ Z.of_nat (k + i) →
    healthy (backend_id d) = true →
    (∀ j d', (j < i)%nat → ds !! j = Some d' → r ≤ Z.of_nat (k + j) →
             healthy (backend_id d') = false) →
    VCL.run_chain r healthy (imap (λ i, selection_branch (k + i)) ds) last
    = [VCL.SetBackend (backend_id d)].
Proof.
  induction ds as [|d0 ds IH]; intros k r last i d Hi Hr Hd Hbefore;
    [done|].
  rewrite imap_selection_cons.
  specialize (IH (S k) r last).
  set (tl := imap (λ i, selection_branch (S k + i)) ds) in *.
  simpl. destruct i as [|i].
  - injection Hi as ->. rewrite Hd, andb_true_r.
    destruct (Z.leb_spec r (Z.of_nat k)); [done | lia].
  - assert (Hskip : (r <=? Z.of_nat k) && healthy (backend_id d0) = false).
    { destruct (Z.leb_spec r (Z.of_nat k)) as [Hle|Hgt]; [|done].
      simpl. apply (Hbefore 0%nat d0); [lia | done | lia]. }
    rewrite Hskip. apply (IH i d Hi); [lia | done |].
    intros j d' Hj Hd' Hrj. apply (Hbefore (S j) d'); [lia | done | lia].
Qed.

Lemma run_chain_no_healthy (ds : list deployer) :
  ∀ (k : nat) (r : Z) (last : list VCL.stmt),
    (∀ j d', ds !! j = Some d' → r ≤ Z.of_nat (k + j) →
             healthy (backend_id d') = false) →
    VCL.run_chain r healthy (imap (λ i, selection_branch (k + i)) ds) last
    = last.
Proof.
  induction ds as [|d0 ds IH]; intros k r last Hnone; [done|].
  rewrite imap_selection_cons.
  specialize (IH (S k) r last).
  set (tl := imap (λ i, selection_branch (S k + i)) ds) in *.
  simpl.
  assert (Hskip : (r <=? Z.of_nat k) && healthy (backend_id d0) = false).
  { destruct (Z.leb_spec r (Z.of_nat k)) as [Hle|Hgt]; [|done].
    simpl. apply (Hnone 0%nat d0); [done | lia]. }
  rewrite Hskip. apply IH.
  intros j d' Hd' Hrj. apply (Hnone (S j) d'); [done | lia].
Qed.

(** X1: for any health of the backends and any draw [r], the generated
    snippet selects the first healthy deployer whose index is at least
    [r]; when no deployer with index at least [r] is healthy it selects
    deployer 0, healthy or not, and runs its custom VCL.  A healthy
    deployer with an index below the draw is never selected by its own
    branch. *)
Theorem selectBackendVCL_first_healthy (g : state) (d0 : deployer)
    (rest : list deployer) (r : Z) :
  _deployers g = d0 :: rest →
  selectBackendVCL g = Ok (VCL.print (selection d0 rest))
  ∧ (∀ i d,
       _deployers g !! i = Some d →
       r ≤ Z.of_nat i →
       healthy (backend_id d) = true →
       (∀ j d', (j < i)%nat → _deployers g !! j = Some d' →
                r ≤ Z.of_nat j → healthy (backend_id d') = false) →
       VCL.run (selection d0 rest) r healthy
       = [VCL.SetBackend (backend_id d)])
  ∧ ((∀ j d', _deployers g !! j = Some d' → r ≤ Z.of_nat j →
              healthy (backend_id d') = false) →
     VCL.run (selection d0 rest) r healthy
     = [VCL.SetBackend (backend_id d0);
        VCL.Verbatim (to_str (customVCL d0))]).
Proof.
  intros Hds. split; [by apply selectBackendVCL_print|].
  rewrite Hds. unfold VCL.run, selection.
  cbn [VCL.chain VCL.otherwise VCL.run_chain VCL.guard VCL.holds].
  split.
  - intros i d Hi Hr Hd Hbefore.
    by apply (run_chain_first_healthy (d0 :: rest) 0 r _ i d).
  - intros Hnone. by apply (run_chain_no_healthy (d0 :: rest) 0 r).
Qed.
End RoutingPartial.

Lemma selectBackendVCL_first_healthy_witness :
  VCL.run (selection SampleThree.a [SampleThree.b; SampleThree.c]) 1
    (λ b, negb (String.eqb b "F_google"))
  = [VCL.SetBackend "F_openwhisk"]
  ∧ VCL.run (selection SampleThree.a [SampleThree.b; SampleThree.c]) 1
      (λ b, String.eqb b "F_aws")
    = [VCL.SetBackend "F_aws"; VCL.Verbatim "set req.http.x-aws = 1;"].
Proof.
  split.
  - apply (proj1 (proj2 (selectBackendVCL_first_healthy
                           (λ b, negb (String.eqb b "F_google"))
                           SampleThree.gateway SampleThree.a
                           [SampleThree.b; SampleThree.c] 1 eq_refl))
             2%nat SampleThree.c); [reflexivity | lia | reflexivity |].
    intros j d' Hj Hd' Hr.
    assert (j = 1%nat) as -> by lia. by injection Hd' as <-.
  - apply (proj2 (proj2 (selectBackendVCL_first_healthy
                           (λ b, String.eqb b "F_aws")
                           SampleThree.gateway SampleThree.a
                           [SampleThree.b; SampleThree.c] 1 eq_refl))).
    intros j d' Hd' Hr.
    destruct j as [|[|[|j]]]; [lia | | | done]; by injection Hd' as <-.
Defined.

(** ** FastlyGateway: every run of deploy *)

Section DeployCases.
Import FastlyGateway Written.
Variable c : FastlyClient.
Variable v : Z.

Lemma promise_all_Throw (l : list (result unit)) (e : js_error) :
  promise_all l = Throw e → Throw e ∈ l.
Proof.
  induction l as [|[[]|e'] l IH]; simpl; [done| |].
  - intros H. right. by apply IH.
  - intros [= ->]. left.
Qed.

(** The snippet stage sends the four snippets one after the other and
    stops at the first that is rejected. *)
Lemma write_snippets_run (g s : state) :
  final_state (write_snippets c v g s) = s
  ∧ match selectBackendVCL g with
    | Ok vcl =>
        ∃ k, (1 ≤ k ≤ 4)%nat
             ∧ trace (write_snippets c v g s)
               = Call <$> take k (snippet_calls v g vcl)
    | Throw e =>
        write_snippets c v g s = (s, [], Throw e)
    end.
Proof.
  unfold write_snippets, snippet_calls. unfold_effects. unfold send.
  unfold_effects.
  destruct (selectBackendVCL g) as [vcl|e]; simpl; [|done].
  destruct (answers c (WriteSnippet v "backend" _)) as [[]|e1]; simpl;
    [|split; [done | exists 1%nat; split; [lia | done]]].
  destruct (answers c (WriteSnippet v "missurl" _)) as [[]|e2]; simpl;
    [|split; [done | exists 2%nat; split; [lia | done]]].
  destruct (answers c (WriteSnippet v "passurl" _)) as [[]|e3]; simpl;
    [|split; [done | exists 3%nat; split; [lia | done]]].
  split; [done|]. exists 4%nat. split; [lia | done].
Qed.

Lemma operations_condition_rejected (g : state) (e : js_error) :
  answers c (WriteCondition v "false" false_condition) = Throw e →
  operations c v g
  = (g, [Call (WriteCondition v "false" false_condition)], Throw e).
Proof.
  intros Hcond. unfold operations.
  erewrite bind_run by reflexivity. cbv beta.
  erewrite bind_throw; [reflexivity|].
  by rewrite write_condition_run, Hcond.
Qed.

Lemma operations_healthcheck_rejected (g : state) (e : js_error) :
  answers c (WriteCondition v "false" false_condition) = Ok tt →
  promise_all (answers c <$> healthcheck_calls v g) = Throw e →
  operations c v g
  = (g, Call <$> (WriteCondition v "false" false_condition
                  :: healthcheck_calls v g),
     Throw e).
Proof.
  intros Hcond Hhc. unfold operations.
  erewrite bind_run by reflexivity. cbv beta.
  erewrite bind_run by (by rewrite write_condition_run, Hcond). cbv beta.
  erewrite bind_throw; [reflexivity|].
  by rewrite write_healthchecks_run, Hhc.
Qed.

Lemma operations_backend_rejected (g : state) (e : js_error) :
  answers c (WriteCondition v "false" false_condition) = Ok tt →
  promise_all (answers c <$> healthcheck_calls v g) = Ok tt →
  promise_all
    ((λ b, if accepted c (CreateBackend v b) then Ok tt
           else answers c (UpdateBackend v (b_name b) b))
     <$> (backend_of <$> _deployers g)) = Throw e →
  operations c v g
  = (g, Call <$> (WriteCondition v "false" false_condition
                  :: healthcheck_calls v g
                  ++ create_calls v g ++ update_calls c v g),
     Throw e).
Proof.
  intros Hcond Hhc Hbe. unfold operations.
  erewrite bind_run by reflexivity. cbv beta.
  erewrite bind_run by (by rewrite write_condition_run, Hcond). cbv beta.
  erewrite bind_run by (by rewrite write_healthchecks_run, Hhc). cbv beta.
  erewrite bind_throw; cycle 1.
  { rewrite write_backends_run, Hbe. reflexivity. }
  simpl. by rewrite !fmap_app.
Qed.

Lemma operations_backends_written (g : state) :
  answers c (WriteCondition v "false" false_condition) = Ok tt →
  promise_all (answers c <$> healthcheck_calls v g) = Ok tt →
  promise_all
    ((λ b, if accepted c (CreateBackend v b) then Ok tt
           else answers c (UpdateBackend v (b_name b) b))
     <$> (backend_of <$> _deployers g)) = Ok tt →
  operations c v g
  = (g,
     (Call <$> (WriteCondition v "false" false_condition
                :: healthcheck_calls v g
                ++ create_calls v g ++ update_calls c v g))
     ++ trace (write_snippets c v g g),
     outcome (write_snippets c v g g)).
Proof.
  intros Hcond Hhc Hbe. unfold operations.
  erewrite bind_run by reflexivity. cbv beta.
  erewrite bind_run by (by rewrite write_condition_run, Hcond). cbv beta.
  erewrite bind_run by (by rewrite write_healthchecks_run, Hhc). cbv beta.
  erewrite bind_run; cycle 1.
  { rewrite write_backends_run, Hbe. reflexivity. }
  cbv beta.
  destruct (write_snippets_run g g) as [Hstate _].
  destruct (write_snippets c v g g) as [[s' t] r]. simpl in *.
  unfold final_state in Hstate. simpl in Hstate. subst s'.
  unfold trace, outcome. simpl. by rewrite !fmap_app, <- !app_assoc.
Qed.
End DeployCases.

Section DeployRun.
Import FastlyGateway Written.

Lemma deploy_no_version (g : state) (c : FastlyClient) (e : js_error) :
  _fastly g = Some c →
  transact_version c = Throw e →
  deploy g = (g, [LogInfo "Set up Fastly Gateway"], Throw e).
Proof.
  intros Hc Hv. unfold deploy.
  erewrite bind_run by reflexivity. cbv beta.
  erewrite bind_run by reflexivity. cbv beta. rewrite Hc.
  erewrite bind_throw; [reflexivity|]. unfold await. by rewrite Hv.
Qed.

Lemma deploy_run (g : state) (c : FastlyClient) (v : Z) :
  _fastly g = Some c →
  transact_version c = Ok v →
  deploy g
  = (final_state (operations c v g),
     LogInfo "Set up Fastly Gateway" :: trace (operations c v g),
     match outcome (operations c v g) with
     | Ok _ => transact_activate c
     | Throw e => Throw e
     end).
Proof.
  intros Hc Hv. unfold deploy.
  erewrite bind_run by reflexivity. cbv beta.
  erewrite bind_run by reflexivity. cbv beta. rewrite Hc.
  erewrite bind_run by (unfold await; by rewrite Hv). cbv beta.
  unfold bind, await.
  destruct (operations c v g) as [[s' t] [[]|e]]; simpl;
    by rewrite ?app_nil_r.
Qed.
End DeployRun.

Section DeployAlways.
Import FastlyGateway Written.

Lemma operations_state (c : FastlyClient) (v : Z) (g : state) :
  final_state (operations c v g) = g.
Proof.
  destruct (answers c (WriteCondition v "false" false_condition))
    as [[]|e1] eqn:Hcond;
    [|by rewrite (operations_condition_rejected c v g e1)].
  destruct (promise_all (answers c <$> healthcheck_calls v g))
    as [[]|e2] eqn:Hhc;
    [|by rewrite (operations_healthcheck_rejected c v g e2)].
  destruct (promise_all
              ((λ b, if accepted c (CreateBackend v b) then Ok tt
                     else answers c (UpdateBackend v (b_name b) b))
               <$> (backend_of <$> _deployers g)))
    as [[]|e3] eqn:Hbe;
    [|by rewrite (operations_backend_rejected c v g e3)].
  by rewrite (operations_backends_written c v g).
Qed.

(** X2: [deploy()] never changes the gateway object, whatever the
    service answers and whether it resolves or throws. *)
Theorem deploy_keeps_gateway (g : state) :
  final_state (deploy g) = g.
Proof.
  destruct (_fastly g) as [c|] eqn:Hc.
  - destruct (transact_version c) as [v|e] eqn:Hv.
    + rewrite (deploy_run g c v Hc Hv). apply operations_state.
    + by rewrite (deploy_no_version g c e Hc Hv).
  - unfold deploy. unfold_effects. by rewrite Hc.
Qed.

(** The shapes of the trace of a run. *)
Lemma deploy_trace_cases (g : state) (c : FastlyClient) :
  _fastly g = Some c →
  trace (deploy g) = [LogInfo "Set up Fastly Gateway"]
  ∨ ∃ v,
      transact_version c = Ok v
      ∧ (trace (deploy g)
         = LogInfo "Set up Fastly Gateway"
           :: (Call <$> [WriteCondition v "false" false_condition])
         ∨ trace (deploy g)
           = LogInfo "Set up Fastly Gateway"
             :: (Call <$> (WriteCondition v "false" false_condition
                           :: healthcheck_calls v g))
         ∨ ∃ vcl k,
             (k = 0%nat ∨ selectBackendVCL g = Ok vcl)
             ∧ trace (deploy g)
               = LogInfo "Set up Fastly Gateway"
                 :: (Call <$> (WriteCondition v "false" false_condition
                               :: healthcheck_calls v g
                               ++ create_calls v g ++ update_calls c v g
                               ++ take k (snippet_calls v g vcl)))).
Proof.
  intros Hc. destruct (transact_version c) as [v|e] eqn:Hv;
    [|left; by rewrite (deploy_no_version g c e Hc Hv)].
  right. exists v. split; [done|]. rewrite (deploy_run g c v Hc Hv).
  unfold trace at 1 3 5. simpl.
  destruct (answers c (WriteCondition v "false" false_condition))
    as [[]|e1] eqn:Hcond;
    [|left; by rewrite (operations_condition_rejected c v g e1)].
  destruct (promise_all (answers c <$> healthcheck_calls v g))
    as [[]|e2] eqn:Hhc;
    [|right; left; by rewrite (operations_healthcheck_rejected c v g e2)].
  right. right.
  destruct (promise_all
              ((λ b, if accepted c (CreateBackend v b) then Ok tt
                     else answers c (UpdateBackend v (b_name b) b))
               <$> (backend_of <$> _deployers g)))
    as [[]|e3] eqn:Hbe.
  - rewrite (operations_backends_written c v g Hcond Hhc Hbe).
    destruct (write_snippets_run c v g g) as [_ Hsnip].
    destruct (selectBackendVCL g) as [vcl|e4].
    + destruct Hsnip as (k & _ & ->). exists vcl, k. split; [by right|].
      unfold trace. simpl. by rewrite <- !fmap_app, <- !app_assoc.
    + rewrite Hsnip. exists "", 0%nat. split; [by left|].
      unfold trace. simpl. by rewrite !app_nil_r.
  - rewrite (operations_backend_rejected c v g e3 Hcond Hhc Hbe).
    exists "", 0%nat. split; [by left|].
    unfold trace. simpl. by rewrite !app_nil_r.
Qed.

End DeployAlways.


Section DeployAborts.
Import FastlyGateway Written.

Lemma promise_all_rejects (l : list (result unit)) (e0 : js_error) :
  Throw e0 ∈ l → ∃ e, promise_all l = Throw e ∧ Throw e ∈ l.
Proof.
  induction l as [|[[]|e'] l IH]; intros Hin.
  - by apply elem_of_nil in Hin.
  - apply elem_of_cons in Hin as [Hin|Hin]; [discriminate|].
    destruct (IH Hin) as (e & He & Hel). exists e. split; [done|]. by right.
  - exists e'. split; [done|]. left.
Qed.

(** X4: when the service rejects one of the health checks, every health
    check has still been sent, but no backend and no snippet request is;
    [deploy()] throws the error of a rejected health check, and the new
    version is not activated. *)
Theorem deploy_healthcheck_rejected (g : state) (c : FastlyClient) (v : Z)
    (k : call) (e0 : js_error) :
  _fastly g = Some c →
  transact_version c = Ok v →
  answers c (WriteCondition v "false" false_condition) = Ok tt →
  k ∈ healthcheck_calls v g →
  answers c k = Throw e0 →
  trace (deploy g)
  = LogInfo "Set up Fastly Gateway"
    :: (Call <$> (WriteCondition v "false" false_condition
                  :: healthcheck_calls v g))
  ∧ ∃ e k', outcome (deploy g) = Throw e
            ∧ k' ∈ healthcheck_calls v g ∧ answers c k' = Throw e.
Proof.
  intros Hc Hv Hcond Hk Hrej.
  destruct (promise_all_rejects (answers c <$> healthcheck_calls v g) e0)
    as (e & Hall & Hin).
  { rewrite <- Hrej. by apply list_elem_of_fmap_2. }
  rewrite (deploy_run g c v Hc Hv).
  rewrite (operations_healthcheck_rejected c v g e Hcond Hall).
  split; [done|].
  apply list_elem_of_fmap in Hin as (k' & Hk' & Hin).
  by exists e, k'.
Qed.

(** X7: with no deployer, [deploy()] never resolves, whatever the
    service answers: the only request it can send is the condition, and
    the new version is left without health check, backend and snippet. *)
Theorem deploy_no_deployer (g : state) (c : FastlyClient) :
  _fastly g = Some c →
  _deployers g = [] →
  (∃ e, outcome (deploy g) = Throw e)
  ∧ ∀ k, Call k ∈ trace (deploy g) →
         ∃ v, k = WriteCondition v "false" false_condition.
Proof.
  intros Hc Hds. split.
  - destruct (outcome (deploy g)) as [[]|e] eqn:Hok; [|by exists e].
    destruct (deploy_resolved g c Hc Hok) as (v & vcl & _ & Hvcl & _).
    unfold selectBackendVCL in Hvcl. by rewrite Hds in Hvcl.
  - intros k Hk.
    destruct (deploy_trace_cases g c Hc)
      as [Ht | (v & _ & [Ht | [Ht | (vcl & n & Hn & Ht)]])];
      rewrite Ht in Hk; clear Ht.
    + apply list_elem_of_singleton in Hk. discriminate.
    + apply elem_of_cons in Hk as [Hk|Hk]; [discriminate|].
      apply list_elem_of_singleton in Hk as [= ->]. by exists v.
    + revert Hk. unfold healthcheck_calls. rewrite Hds. simpl.
      intros Hk. apply elem_of_cons in Hk as [Hk|Hk]; [discriminate|].
      apply list_elem_of_singleton in Hk as [= ->]. by exists v.
    + destruct Hn as [-> | Hvcl].
      * revert Hk. unfold healthcheck_calls, create_calls, update_calls.
        rewrite Hds. simpl.
        intros Hk. apply elem_of_cons in Hk as [Hk|Hk]; [discriminate|].
        apply list_elem_of_singleton in Hk as [= ->]. by exists v.
      * unfold selectBackendVCL in Hvcl. by rewrite Hds in Hvcl.
Qed.
End DeployAborts.

Lemma deploy_healthcheck_rejected_witness :
  trace (FastlyGateway.deploy
           (SampleClients.with_client (SampleClients.unchecked 5)
              SampleThree.gateway))
  = FastlyGateway.LogInfo "Set up Fastly Gateway"
    :: (FastlyGateway.Call
        <$> (FastlyGateway.WriteCondition 5 "false"
               FastlyGateway.false_condition
             :: Written.healthcheck_calls 5
                  (SampleClients.with_client (SampleClients.unchecked 5)
                     SampleThree.gateway))).
Proof.
  apply (deploy_healthcheck_rejected
           (SampleClients.with_client (SampleClients.unchecked 5)
              SampleThree.gateway)
           (SampleClients.unchecked 5) 5
           (FastlyGateway.WriteHealthcheck 5 "googleCheck"
              (FastlyGateway.healthcheck_of
                 (SampleClients.with_client (SampleClients.unchecked 5)
                    SampleThree.gateway)
                 SampleThree.b))
           SampleClients.bad_gateway);
    try reflexivity.
  vm_compute. right. left.
Defined.

Lemma deploy_no_deployer_witness :
  ∃ e, outcome (FastlyGateway.deploy SampleRuns.none) = Throw e.
Proof.
  exact (proj1 (deploy_no_deployer SampleRuns.none (Written.accepting 2)
                  eq_refl eq_refl)).
Defined.

Section BackendWrites.
Import FastlyGateway Written.


Lemma healthchecks_of_calls (v : Z) (hs : list Healthcheck) :
  healthchecks ((λ h, WriteHealthcheck v (hc_name h) h) <$> hs) = hs.
Proof.
  induction hs as [|h hs IH]; [done|].
  change (healthchecks
            ((λ h, WriteHealthcheck v (hc_name h) h) <$> h :: hs))
    with (h :: healthchecks
                 ((λ h, WriteHealthcheck v (hc_name h) h) <$> hs)).
  by rewrite IH.
Qed.

Lemma healthchecks_filter_none (f : call → bool) (ks : list call) :
  healthchecks ks = [] → healthchecks (List.filter f ks) = [].
Proof.
  induction ks as [|k ks IH]; [done|]. simpl.
  destruct k; simpl; try discriminate; intros Hks;
    destruct (f _); simpl; auto.
Qed.

Lemma healthchecks_create_calls (v : Z) (g : state) :
  healthchecks (create_calls v g) = [].
Proof.
  unfold create_calls.
  induction (backend_of <$> _deployers g); [done | by simpl].
Qed.

Lemma healthchecks_update_calls (c : FastlyClient) (v : Z) (g : state) :
  healthchecks (update_calls c v g) = [].
Proof.
  unfold update_calls.
  induction (backend_of <$> _deployers g) as [|b bs IH]; [done|]. simpl.
  by destruct (accepted c (CreateBackend v b)).
Qed.

Lemma backends_healthcheck_calls (v : Z) (g : state) :
  backends (healthcheck_calls v g) = [].
Proof.
  unfold healthcheck_calls.
  induction (healthcheck_of g <$> _deployers g); [done | by simpl].
Qed.

(** Each backend is written once: by its creation, or by its update. *)
Lemma backends_written_once (c : FastlyClient) (v : Z) (bs : list Backend) :
  backends
    (List.filter (accepted c) (CreateBackend v <$> bs)
     ++ omap (λ b, if accepted c (CreateBackend v b) then None
                   else Some (UpdateBackend v (b_name b) b)) bs)
  ≡ₚ bs.
Proof.
  induction bs as [|b bs IH]; [done|].
  cbn [fmap list_fmap List.filter omap list_omap].
  destruct (accepted c (CreateBackend v b)).
  - simpl. by constructor.
  - unfold backends in *. rewrite omap_app in *. simpl.
    rewrite <- Permutation_middle. by constructor.
Qed.

(** The requests the service accepted in a run that resolved. *)
Lemma deploy_written (g : state) (c : FastlyClient) :
  _fastly g = Some c →
  outcome (deploy g) = Ok tt →
  ∃ v vcl,
    written c (trace (deploy g))
    = [WriteCondition v "false" false_condition]
      ++ healthcheck_calls v g
      ++ (List.filter (accepted c) (create_calls v g)
          ++ update_calls c v g)
      ++ snippet_calls v g vcl.
Proof.
  intros Hc Hok.
  destruct (deploy_resolved g c Hc Hok)
    as (v & vcl & _ & _ & _ & Htrace & Hcond & Hhc & Hupd & Hsnip).
  exists v, vcl. rewrite Htrace, written_deploy_trace.
  change (?k :: ?l ++ ?l') with ([k] ++ l ++ l').
  rewrite !List.filter_app.
  rewrite (filter_accepted_all c _ Hsnip), (filter_accepted_all c _ Hhc).
  rewrite (filter_accepted_all c _ Hupd).
  rewrite (filter_accepted_all c [_]) by (by constructor).
  by rewrite <- !app_assoc.
Qed.
End BackendWrites.

Section WrittenResources.
Import FastlyGateway Written.

Lemma healthchecks_app (ks ks' : list call) :
  healthchecks (ks ++ ks') = healthchecks ks ++ healthchecks ks'.
Proof. apply omap_app. Qed.

Lemma backends_app (ks ks' : list call) :
  backends (ks ++ ks') = backends ks ++ backends ks'.
Proof. apply omap_app. Qed.

Lemma healthchecks_written_eq (g : state) (c : FastlyClient) :
  _fastly g = Some c →
  outcome (deploy g) = Ok tt →
  healthchecks (written c (trace (deploy g)))
  = healthcheck_of g <$> _deployers g.
Proof.
  intros Hc Hok.
  destruct (deploy_written g c Hc Hok) as (v & vcl & ->).
  rewrite !healthchecks_app.
  rewrite (healthchecks_filter_none _ _ (healthchecks_create_calls v g)).
  rewrite healthchecks_update_calls.
  unfold healthcheck_calls. rewrite healthchecks_of_calls.
  simpl. by rewrite app_nil_r.
Qed.

(** X6: a [deploy()] that resolves has written exactly one health
    check per deployer, in the order of the deployers: the check of a
    deployer is named [{name}Check] and probes [basePath + checkpath] on
    the deployer's host. *)
Theorem deploy_healthchecks_written (g : state) (c : FastlyClient) :
  _fastly g = Some c →
  outcome (deploy g) = Ok tt →
  healthchecks (written c (trace (deploy g)))
  = healthcheck_of g <$> _deployers g
  ∧ length (healthchecks (written c (trace (deploy g))))
    = length (_deployers g)
  ∧ ∀ i d, _deployers g !! i = Some d →
           ∃ h, healthchecks (written c (trace (deploy g))) !! i = Some h
                ∧ hc_name h = name d +:+ "Check"
                ∧ path h = basePath d +:+ to_str (_checkpath g)
                ∧ hc_host h = host d
                ∧ method h = "GET"
                ∧ expected_response h = 200.
Proof.
  intros Hc Hok.
  rewrite (healthchecks_written_eq g c Hc Hok). split; [done|]. split; [by rewrite length_fmap|].
  intros i d Hd. exists (healthcheck_of g d).
  by rewrite list_lookup_fmap, Hd.
Qed.

(** X5: a [deploy()] that resolves has written every deployer's
    backend exactly once, by a creation or, where the creation was
    rejected, by an update; and every backend written names a health
    check written in the same run, for the same host. *)
Theorem deploy_backends_written (g : state) (c : FastlyClient) :
  _fastly g = Some c →
  outcome (deploy g) = Ok tt →
  backends (written c (trace (deploy g))) ≡ₚ backend_of <$> _deployers g
  ∧ ∀ b, b ∈ backends (written c (trace (deploy g))) →
         ∃ h, h ∈ healthchecks (written c (trace (deploy g)))
              ∧ healthcheck b = hc_name h
              ∧ hostname b = hc_host h.
Proof.
  intros Hc Hok.
  assert (Hperm : backends (written c (trace (deploy g)))
                  ≡ₚ backend_of <$> _deployers g).
  { destruct (deploy_written g c Hc Hok) as (v & vcl & ->).
    rewrite !backends_app, backends_healthcheck_calls.
    change (backends [WriteCondition v "false" false_condition]) with
      (@nil Backend).
    change (backends (snippet_calls v g vcl)) with (@nil Backend).
    rewrite app_nil_r. simpl.
    rewrite <- backends_app. apply backends_written_once. }
  split; [exact Hperm|]. intros b Hb. rewrite Hperm in Hb.
  apply list_elem_of_fmap in Hb as (d & -> & Hd).
  exists (healthcheck_of g d). split; [|done].
  rewrite (healthchecks_written_eq g c Hc Hok).
  by apply list_elem_of_fmap_2.
Qed.
End WrittenResources.

Lemma deploy_healthchecks_written_witness :
  FastlyGateway.hc_name
  <$> Written.healthchecks
        (Written.written (SampleClients.conflicting 7)
           (trace (FastlyGateway.deploy
                     (SampleClients.with_client (SampleClients.conflicting 7)
                        SampleThree.gateway))))
  = ["awsCheck"; "googleCheck"; "openwhiskCheck"].
Proof.
  rewrite (proj1 (deploy_healthchecks_written
                    (SampleClients.with_client (SampleClients.conflicting 7)
                       SampleThree.gateway)
                    (SampleClients.conflicting 7) eq_refl eq_refl)).
  reflexivity.
Defined.

Lemma deploy_backends_written_witness :
  Written.backends
    (Written.written (SampleClients.conflicting 7)
       (trace (FastlyGateway.deploy
                 (SampleClients.with_client (SampleClients.conflicting 7)
                    SampleThree.gateway))))
  ≡ₚ FastlyGateway.backend_of
     <$> [SampleThree.a; SampleThree.b; SampleThree.c].
Proof.
  exact (proj1 (deploy_backends_written
                  (SampleClients.with_client (SampleClients.conflicting 7)
                     SampleThree.gateway)
                  (SampleClients.conflicting 7) eq_refl eq_refl)).
Defined.


(** ** FastlyGateway: the builder *)

Section Builder.
Import FastlyGateway.
Variable Fastly : jsval → jsval → FastlyClient.

Lemma apply_calls_cons (g : state) (k : gateway_call)
    (ks : list gateway_call) :
  apply_calls Fastly g (k :: ks)
  = apply_calls Fastly (apply_call Fastly g k) ks.
Proof. reflexivity. Qed.

Lemma init_deployers (g : state) : _deployers (init Fastly g) = _deployers g.
Proof. unfold init. by destruct (ready g && negb (has_client g)). Qed.

Lemma deployers_after_calls (ks : list gateway_call) (g : state) :
  _deployers (apply_calls Fastly g ks)
  = _deployers g
    ++ omap (λ k, match k with WithDeployer d => Some d | _ => None end) ks.
Proof.
  revert g. induction ks as [|k ks IH]; intros g.
  { simpl. by rewrite app_nil_r. }
  rewrite apply_calls_cons, IH.
  destruct k; simpl; rewrite ?init_deployers; try done.
  by rewrite <- app_assoc.
Qed.

(** X9: after any sequence of builder and [init()] calls on a new
    gateway, the deployers are the arguments of the [withDeployer] calls
    in call order; so the first deployer added is the one the generated
    routing falls back to, whatever was called in between. *)
Theorem builder_keeps_deployer_order (ks : list gateway_call) :
  _deployers (apply_calls Fastly constructor ks)
  = omap (λ k, match k with WithDeployer d => Some d | _ => None end) ks
  ∧ ∀ d0 rest,
      omap (λ k, match k with WithDeployer d => Some d | _ => None end) ks
      = d0 :: rest →
      selectBackendVCL (apply_calls Fastly constructor ks)
      = Ok (VCL.print (selection d0 rest)).
Proof.
  assert (Hds := deployers_after_calls ks constructor).
  simpl in Hds. split; [exact Hds|].
  intros d0 rest Hks. apply selectBackendVCL_print. by rewrite Hds.
Qed.

Lemma unready_stays_without_client (field : state → jsval)
    (sets : gateway_call → option jsval) (ks : list gateway_call) :
  (∀ g, ready g = true → truthy (field g) = true) →
  (∀ g k, field (apply_call Fastly g k)
          = match sets k with Some v => v | None => field g end) →
  (∀ k v, k ∈ ks → sets k = Some v → truthy v = false) →
  ∀ g, _fastly g = None → truthy (field g) = false →
       _fastly (apply_calls Fastly g ks) = None.
Proof.
  intros Hready Hsets. induction ks as [|k ks IH]; intros Hks g Hc Hf;
    [done|].
  rewrite apply_calls_cons. apply IH.
  - intros k' v Hk'. apply Hks. by right.
  - destruct k; simpl; try done.
    unfold init. destruct (ready g) eqn:Hr; [|done].
    apply Hready in Hr. congruence.
  - rewrite Hsets. destruct (sets k) as [v|] eqn:Hk; [|done].
    apply (Hks k v); [by left | done].
Qed.

Lemma init_fields (g : state) :
  _auth (init Fastly g) = _auth g
  ∧ _service (init Fastly g) = _service g
  ∧ _checkpath (init Fastly g) = _checkpath g.
Proof. unfold init. by destruct (ready g && negb (has_client g)). Qed.

(** X8: a new gateway that is never given a truthy auth token, or never
    a truthy service ID, or never a truthy checkpath, has no client
    after any sequence of builder and [init()] calls; its [deploy()]
    logs one line, sends nothing, and throws a [TypeError]. *)
Theorem unready_gateway_never_deploys (ks : list gateway_call) :
  (∀ v, WithAuth v ∈ ks → truthy v = false)
  ∨ (∀ v, WithServiceID v ∈ ks → truthy v = false)
  ∨ (∀ v, WithCheckpath v ∈ ks → truthy v = false) →
  _fastly (apply_calls Fastly constructor ks) = None
  ∧ trace (deploy (apply_calls Fastly constructor ks))
    = [LogInfo "Set up Fastly Gateway"]
  ∧ ∃ e, outcome (deploy (apply_calls Fastly constructor ks)) = Throw e
         ∧ err_name e = "TypeError".
Proof.
  intros Hnever.
  assert (Hnone : _fastly (apply_calls Fastly constructor ks) = None).
  { destruct Hnever as [Hauth | [Hservice | Hcheck]].
    - apply (unready_stays_without_client _auth
               (λ k, match k with WithAuth v => Some v | _ => None end));
        try done.
      + intros g. unfold ready. rewrite !andb_true_iff. tauto.
      + intros g [] ; simpl; try done. apply init_fields.
      + intros [] v Hk; try discriminate. intros [= ->]. by apply Hauth.
    - apply (unready_stays_without_client _service
               (λ k, match k with WithServiceID v => Some v | _ => None end));
        try done.
      + intros g. unfold ready. rewrite !andb_true_iff. tauto.
      + intros g []; simpl; try done. apply init_fields.
      + intros [] v Hk; try discriminate. intros [= ->]. by apply Hservice.
    - apply (unready_stays_without_client _checkpath
               (λ k, match k with WithCheckpath v => Some v | _ => None end));
        try done.
      + intros g. unfold ready. rewrite !andb_true_iff. tauto.
      + intros g []; simpl; try done. apply init_fields.
      + intros [] v Hk; try discriminate. intros [= ->]. by apply Hcheck. }
  split; [exact Hnone|].
  unfold deploy. unfold_effects. rewrite Hnone. simpl.
  split; [done|]. by eexists.
Qed.
End Builder.

Lemma builder_keeps_deployer_order_witness :
  FastlyGateway.selectBackendVCL
    (apply_calls SampleGateway.Fastly FastlyGateway.constructor
       [WithAuth (JSstr "token"); WithDeployer SampleThree.a; Init;
        WithDeployer SampleThree.b; WithCheckpath (JSstr "/health");
        WithServiceID (JSstr "service"); Init; WithDeployer SampleThree.c])
  = Ok (VCL.print (selection SampleThree.a [SampleThree.b; SampleThree.c])).
Proof.
  apply (proj2 (builder_keeps_deployer_order SampleGateway.Fastly
                  [WithAuth (JSstr "token"); WithDeployer SampleThree.a; Init;
                   WithDeployer SampleThree.b;
                   WithCheckpath (JSstr "/health");
                   WithServiceID (JSstr "service"); Init;
                   WithDeployer SampleThree.c])).
  reflexivity.
Defined.

Lemma unready_gateway_never_deploys_witness :
  FastlyGateway._fastly
    (apply_calls SampleGateway.Fastly FastlyGateway.constructor
       [WithAuth (JSstr "token"); WithServiceID (JSstr "service");
        WithDeployer SampleGateway.g; Init])
  = None.
Proof.
  apply (unready_gateway_never_deploys SampleGateway.Fastly
           [WithAuth (JSstr "token"); WithServiceID (JSstr "service");
            WithDeployer SampleGateway.g; Init]).
  right. right. intros v Hv. exfalso.
  repeat (apply elem_of_cons in Hv as [Hv|Hv]; [discriminate Hv|]).
  by apply elem_of_nil in Hv.
Defined.
